(** * webrender: the browser rendering pipeline and its capture executor

    A shallow embedding of the Go packages [browser] (ChromeBrowser) and
    [processor] (ImageProcessor, ChromeProcessor) of devopsext/webrender.

    - Go [int] is modelled as [Z]; [time.Duration] is an int64 number of
      nanoseconds and its multiplication wraps around.
    - [map[string]interface{}] is a [gmap string any].
    - A chromedp action is a value of the tagged type [Action]; a
      [chromedp.Tasks] value is the list of actions in execution order.
    - Calls into chromedp, the metrics registry and the HTTP response
      writer are recorded in a trace; what the browser answers to a
      [chromedp.Run] is supplied by an environment. *)

From stdpp Require Import gmap strings list.
From Stdlib Require Import ZArith Lia.

Local Open Scope string_scope.
Local Open Scope list_scope.
Local Open Scope Z_scope.

(** ** Go basics *)

(** A dynamically typed Go value, as far as header values need it. *)
Inductive any : Type :=
| AnyNil
| AnyString (s : string)
| AnyInt (n : Z)
| AnyBool (b : bool).

(** Signed 64-bit wrap-around. *)
Definition wrap64 (z : Z) : Z := (z + 2 ^ 63) mod 2 ^ 64 - 2 ^ 63.

Module time.
(** [time.Second], in nanoseconds. *)
Definition Second : Z := 1000000000.
(** [time.Duration(n) * unit] *)
Definition mul (n unit : Z) : Z := wrap64 (n * unit).
End time.

(** Go errors: the two context sentinels, a plain error, and an error that
    wraps another one (as [fmt.Errorf] with [%w] builds). *)
Inductive error : Type :=
| context_DeadlineExceeded
| context_Canceled
| errors_New (msg : string)
| errors_Wrap (msg : string) (inner : error).

#[global] Instance error_eq_dec : EqDecision error.
Proof. solve_decision. Defined.

(** [errors.Is] on a non-nil error: follows the chain of wrapped errors. *)
Fixpoint errors_Is_chain (err target : error) : bool :=
  if decide (err = target) then true
  else match err with
       | errors_Wrap _ inner => errors_Is_chain inner target
       | _ => false
       end.

(** [errors.Is(err, target)]; a nil [err] matches nothing. *)
Definition errors_Is (err : option error) (target : error) : bool :=
  match err with
  | None => false
  | Some e => errors_Is_chain e target
  end.

(** [err.Error()] *)
Definition error_Error (e : error) : string :=
  match e with
  | context_DeadlineExceeded => "context deadline exceeded"
  | context_Canceled => "context canceled"
  | errors_New msg => msg
  | errors_Wrap msg _ => msg
  end.

(** A parsed [*url.URL], seen through its [String()] rendering. *)
Record url_URL : Type := { URL_String : string }.

(** ** chromedp: actions *)

Inductive QueryOption : Type := ByQueryAll.

(** The automation steps the builders emit. The capture steps write into
    the caller's result record: [OuterHTML] into its DOM field, the three
    output captures into its data buffer. *)
Inductive Action : Type :=
| network_Enable
| network_SetExtraHTTPHeaders (headers : gmap string any)
| chromedp_Navigate (urlstr : string)
| chromedp_Evaluate (expression : string)
| chromedp_Sleep (d : Z)
| chromedp_Stop
| chromedp_OuterHTML (sel : string) (opt : QueryOption)
| page_PrintToPDF (displayHeaderFooter : bool)
| chromedp_FullScreenshot (quality : Z)
| chromedp_CaptureScreenshot.

Abbreviation Tasks := (list Action).

(** Classification of steps, used to state the ordering rules. *)
Definition is_header_step (a : Action) : bool :=
  match a with
  | network_Enable | network_SetExtraHTTPHeaders _ => true
  | _ => false
  end.

Definition is_navigation_step (a : Action) : bool :=
  match a with
  | chromedp_Navigate _ | chromedp_Evaluate _ | chromedp_Sleep _
  | chromedp_Stop => true
  | _ => false
  end.

Definition is_capture_step (a : Action) : bool :=
  match a with
  | page_PrintToPDF _ | chromedp_FullScreenshot _
  | chromedp_CaptureScreenshot => true
  | _ => false
  end.

Definition is_evaluate_step (a : Action) : bool :=
  match a with
  | chromedp_Evaluate _ => true
  | _ => false
  end.

(** ** package browser: options and the pipeline builder *)

Module ChromeBrowserOptions.
Record t : Type := {
  Width : Z;
  Height : Z;
  UserAgent : string;
  JsCode : string;
  Timeout : Z;
  Delay : Z;
  FullPage : bool;
  Path : string;
  Proxy : string;
  Headers : list string;
  HeadersMap : gmap string any;
  ScreenshotCodes : list Z;
  AsPDF : bool
}.
End ChromeBrowserOptions.

Module ChromeBrowserImage.
Record t : Type := {
  Data : list Byte.byte;
  DOM : string
}.
End ChromeBrowserImage.

Module browser.
Import ChromeBrowserOptions.

(** [ChromeBrowser.buildTasks]: [actions] grows by appends, in the order
    of the source. *)
Definition buildTasks (c : ChromeBrowserOptions.t) (url : url_URL)
    (doNavigate : bool) : Tasks :=
  let actions : Tasks := [] in
  let actions :=
    if (0 <? Z.of_nat (size (HeadersMap c)))
    then actions ++ [network_Enable;
                     network_SetExtraHTTPHeaders (HeadersMap c)]
    else actions in
  let actions :=
    if doNavigate then
      let actions := actions ++ [chromedp_Navigate (URL_String url)] in
      let actions :=
        if (0 <? Z.of_nat (String.length (JsCode c)))
        then actions ++ [chromedp_Evaluate (JsCode c)]
        else actions in
      let actions :=
        if (0 <? Delay c)
        then actions ++ [chromedp_Sleep (time.mul (Delay c) time.Second)]
        else actions in
      actions ++ [chromedp_Stop]
    else actions in
  let actions := actions ++ [chromedp_OuterHTML ":root" ByQueryAll] in
  if AsPDF c then
    actions ++ [page_PrintToPDF true]
  else if FullPage c then
    actions ++ [chromedp_FullScreenshot 100]
  else
    actions ++ [chromedp_CaptureScreenshot].
End browser.

(** ** package processor: the duplicated builder of ChromeProcessor *)

Module ChromeProcessorOptions.
Record t : Type := {
  Width : Z;
  Height : Z;
  UserAgent : string;
  JsCode : string;
  Timeout : Z;
  Delay : Z;
  FullPage : bool;
  Path : string;
  Proxy : string;
  Headers : list string;
  HeadersMap : gmap string any;
  ScreenshotCodes : list Z;
  AsPDF : bool
}.
End ChromeProcessorOptions.

Module chrome_processor.
Import ChromeProcessorOptions.

(** [ChromeProcessor.buildTasks] *)
Definition buildTasks (p : ChromeProcessorOptions.t) (url : url_URL)
    (doNavigate : bool) : Tasks :=
  let actions : Tasks := [] in
  let actions :=
    if (0 <? Z.of_nat (size (HeadersMap p)))
    then actions ++ [network_Enable;
                     network_SetExtraHTTPHeaders (HeadersMap p)]
    else actions in
  let actions :=
    if doNavigate then
      let actions := actions ++ [chromedp_Navigate (URL_String url)] in
      let actions :=
        if (0 <? Z.of_nat (String.length (JsCode p)))
        then actions ++ [chromedp_Evaluate (JsCode p)]
        else actions in
      let actions :=
        if (0 <? Delay p)
        then actions ++ [chromedp_Sleep (time.mul (Delay p) time.Second)]
        else actions in
      actions ++ [chromedp_Stop]
    else actions in
  let actions := actions ++ [chromedp_OuterHTML ":root" ByQueryAll] in
  if AsPDF p then
    actions ++ [page_PrintToPDF true]
  else if FullPage p then
    actions ++ [chromedp_FullScreenshot 100]
  else
    actions ++ [chromedp_CaptureScreenshot].
End chrome_processor.

(** ** The outside world: chromedp, metrics and the HTTP writer *)

(** A [context.Context] handle. Handle [0] is [context.Background()]. *)
Abbreviation Ctx := nat.

Module chromedp.
Inductive ExecAllocatorOption : Type :=
| DefaultExecAllocatorOptions
| UserAgent (ua : string)
| DisableGPU
| Flag (name : string) (value : bool)
| WindowSize (width height : Z)
| ExecPath (path : string)
| ProxyServer (proxy : string).

(** The callbacks registered with [ListenTarget]. They run concurrently
    with the main flow; only their registration is recorded. *)
Inductive Listener : Type :=
| OnTargetCrashed_cancel (scope : Ctx)
| OnJavascriptDialogOpening_accept (scope : Ctx)
| OnRuntimeEvent_log
| OnNetworkEvent_log.
End chromedp.

(** What one [chromedp.Run] did: the error it returned and what it stored
    through the buffer and DOM pointers ([None]: left untouched). *)
Record RunOutcome : Type := {
  run_err : option error;
  run_buf : option (list Byte.byte);
  run_dom : option string
}.

(** The calls that leave this repository, as the trace records them.
    Calls that create a scope carry the handle they returned. *)
Inductive Event : Type :=
| EvNewExecAllocator (parent : Ctx)
    (opts : list chromedp.ExecAllocatorOption) (ctx : Ctx)
| EvNewContext (parent ctx : Ctx)
| EvWithTimeout (parent : Ctx) (d : Z) (ctx : Ctx)
| EvListenTarget (ctx : Ctx) (l : chromedp.Listener)
| EvRun (ctx : Ctx) (tasks : Tasks) (out : RunOutcome)
| EvCancel (ctx : Ctx)
| EvCounterInc (name channel : string)
| EvHttpError (msg : string) (code : Z)
| EvWrite (data : list Byte.byte) (err : option error).

(** The decoded form of an image request ([form] tags: url, kind, width,
    height, userAgent, timeout, delay, asPDF, headers). *)
Module ImageProcessorRequest.
Record t : Type := {
  URL : string;
  Kind : string;
  Width : Z;
  Height : Z;
  UserAgent : string;
  Timeout : Z;
  Delay : Z;
  AsPDF : bool;
  Headers : gmap string any
}.
End ImageProcessorRequest.

(** [url.Values], the parsed form of an [*http.Request]. *)
Abbreviation url_Values := (gmap string (list string)).

(** The collaborators outside this repository. The browser's answer to a
    run may depend on everything that happened before it. *)
Record Env : Type := {
  run_outcome : list Event -> Ctx -> Tasks -> RunOutcome;
  url_Parse : string -> url_URL + error;
  utils_IsEmpty : string -> bool;
  form_Decode : url_Values -> ImageProcessorRequest.t * option error;
  http_Write : list Event -> list Byte.byte -> option error
}.

(** The state threaded through the code: the trace so far, the next
    unused scope handle, and the deferred calls of the Go function being
    run. *)
Record World : Type := {
  trace : list Event;
  next_ctx : Ctx;
  deferred : list Event
}.

(** A small state monad over [World]. *)
Definition M (A : Type) : Type := World -> A * World.

#[global] Instance M_ret : MRet M := fun A (a : A) w => (a, w).
#[global] Instance M_bind : MBind M := fun A B (f : A -> M B) (m : M A) w =>
  let '(a, w1) := m w in f a w1.

Definition emit (e : Event) : M unit := fun w =>
  (tt, {| trace := trace w ++ [e]; next_ctx := next_ctx w;
          deferred := deferred w |}).

Definition fresh : M Ctx := fun w =>
  (next_ctx w, {| trace := trace w; next_ctx := S (next_ctx w);
                  deferred := deferred w |}).

Definition get_trace : M (list Event) := fun w => (trace w, w).

(** [defer f()]: the call is pushed; the latest one runs first. *)
Definition defer (e : Event) : M unit := fun w =>
  (tt, {| trace := trace w; next_ctx := next_ctx w;
          deferred := e :: deferred w |}).

(** A Go function body with its own stack of deferred calls, which run
    when the body returns, whatever the return statement. *)
Definition func {A : Type} (body : M A) : M A := fun w =>
  let '(a, w1) := body {| trace := trace w; next_ctx := next_ctx w;
                          deferred := [] |} in
  (a, {| trace := trace w1 ++ deferred w1; next_ctx := next_ctx w1;
         deferred := deferred w |}).

Definition context_Background : Ctx := 0%nat.

Section Effects.
Variable env : Env.

Definition chromedp_NewExecAllocator (parent : Ctx)
    (opts : list chromedp.ExecAllocatorOption) : M Ctx :=
  ctx ← fresh; emit (EvNewExecAllocator parent opts ctx);; mret ctx.

Definition chromedp_NewContext (parent : Ctx) : M Ctx :=
  ctx ← fresh; emit (EvNewContext parent ctx);; mret ctx.

Definition context_WithTimeout (parent : Ctx) (d : Z) : M Ctx :=
  ctx ← fresh; emit (EvWithTimeout parent d ctx);; mret ctx.

Definition chromedp_ListenTarget (ctx : Ctx) (l : chromedp.Listener)
    : M unit :=
  emit (EvListenTarget ctx l).

Definition chromedp_Run (ctx : Ctx) (tasks : Tasks) : M RunOutcome :=
  tr ← get_trace;
  let out := run_outcome env tr ctx tasks in
  emit (EvRun ctx tasks out);; mret out.

Definition cancel (ctx : Ctx) : M unit := emit (EvCancel ctx).
End Effects.

(** Storing a run's results through the two pointers of the result. *)
Definition store (r : ChromeBrowserImage.t) (out : RunOutcome)
    : ChromeBrowserImage.t :=
  {| ChromeBrowserImage.Data :=
       match run_buf out with
       | Some b => b
       | None => ChromeBrowserImage.Data r
       end;
     ChromeBrowserImage.DOM :=
       match run_dom out with
       | Some d => d
       | None => ChromeBrowserImage.DOM r
       end |}.

Module browser_exec.
Import ChromeBrowserOptions.
Import chromedp.

Section Image.
Variable env : Env.

(** [ChromeBrowser.Image] *)
Definition Image (c : ChromeBrowserOptions.t) (url : url_URL)
    : M (option ChromeBrowserImage.t * option error) :=
  func (
    let r := {| ChromeBrowserImage.Data := [];
                ChromeBrowserImage.DOM := "" |} in
    let options : list ExecAllocatorOption := [] in
    let options := options ++ [DefaultExecAllocatorOptions] in
    let options := options ++ [UserAgent (ChromeBrowserOptions.UserAgent c)] in
    let options := options ++ [DisableGPU] in
    let options := options ++ [Flag "ignore-certificate-errors" true] in
    let options := options ++ [WindowSize (Width c) (Height c)] in
    let options :=
      if negb (String.eqb (Path c) "")
      then options ++ [ExecPath (Path c)] else options in
    let options :=
      if negb (String.eqb (Proxy c) "")
      then options ++ [ProxyServer (Proxy c)] else options in
    actx ← chromedp_NewExecAllocator context_Background options;
    defer (EvCancel actx);;
    browserCtx ← chromedp_NewContext actx;
    defer (EvCancel browserCtx);;
    tabCtx ← context_WithTimeout browserCtx
               (time.mul (Timeout c) time.Second);
    defer (EvCancel tabCtx);;
    out0 ← chromedp_Run env browserCtx [];
    match run_err out0 with
    | Some err => mret (None, Some err)
    | None =>
      chromedp_ListenTarget browserCtx (OnTargetCrashed_cancel browserCtx);;
      chromedp_ListenTarget tabCtx (OnTargetCrashed_cancel tabCtx);;
      chromedp_ListenTarget tabCtx (OnJavascriptDialogOpening_accept tabCtx);;
      chromedp_ListenTarget tabCtx OnRuntimeEvent_log;;
      chromedp_ListenTarget tabCtx OnNetworkEvent_log;;
      out1 ← chromedp_Run env tabCtx (browser.buildTasks c url true);
      let r := store r out1 in
      let err := run_err out1 in
      '(r, err) ←
        (if errors_Is err context_DeadlineExceeded then
           newTabCtx ← context_WithTimeout browserCtx
                         (time.mul (Timeout c) time.Second);
           defer (EvCancel newTabCtx);;
           chromedp_ListenTarget newTabCtx
             (OnTargetCrashed_cancel newTabCtx);;
           out2 ← chromedp_Run env newTabCtx
                    (browser.buildTasks c url false);
           mret (store r out2, run_err out2)
         else mret (r, err));
      match err with
      | Some err => mret (None, Some err)
      | None => cancel tabCtx;; mret (Some r, None)
      end
    end).
End Image.
End browser_exec.

(** ** package processor: ImageProcessor *)

Module ImageProcessorOptions.
Record t : Type := {
  Width : Z;
  Height : Z;
  UserAgent : string;
  Timeout : Z;
  Delay : Z;
  BrowserPath : string;
  BrowserKind : string;
  AsPDF : bool
}.
End ImageProcessorOptions.

(** The part of an [*http.Request] the handler reads: the URL path, the
    error of [ParseForm()] and the form it leaves behind. *)
Module http_Request.
Record t : Type := {
  URL_Path : string;
  ParseForm_err : option error;
  Form : url_Values
}.
End http_Request.

Fixpoint string_contains_char (a : Ascii.ascii) (s : string) : bool :=
  match s with
  | EmptyString => false
  | String b s' => if Ascii.eqb a b then true else string_contains_char a s'
  end.

(** [strings.TrimLeft(s, cutset)] *)
Fixpoint strings_TrimLeft (s cutset : string) : string :=
  match s with
  | EmptyString => EmptyString
  | String a s' =>
    if string_contains_char a cutset then strings_TrimLeft s' cutset else s
  end.

Definition http_StatusInternalServerError : Z := 500.

Module image_processor.
Module Rq := ImageProcessorRequest.
Module Op := ImageProcessorOptions.

Section ImageProcessor.
Variable env : Env.

(** The first part of [ImageProcessor.chromeImage]: the options record
    handed to [NewChromeBrowser]. Fields the composite literal leaves
    out take Go's zero value. *)
Definition chromeImage_options (p : Op.t) (r : Rq.t)
    : ChromeBrowserOptions.t :=
  let width := Rq.Width r in
  let width := if width =? 0 then Op.Width p else width in
  let height := Rq.Height r in
  let height := if height =? 0 then Op.Height p else height in
  let userAgent := Rq.UserAgent r in
  let userAgent :=
    if utils_IsEmpty env userAgent then Op.UserAgent p else userAgent in
  let timeout := Rq.Timeout r in
  let timeout := if timeout =? 0 then Op.Timeout p else timeout in
  let delay := Rq.Delay r in
  let delay := if delay =? 0 then Op.Delay p else delay in
  {| ChromeBrowserOptions.Width := width;
     ChromeBrowserOptions.Height := height;
     ChromeBrowserOptions.Path := Op.BrowserPath p;
     ChromeBrowserOptions.UserAgent := userAgent;
     ChromeBrowserOptions.Timeout := timeout;
     ChromeBrowserOptions.Delay := delay;
     ChromeBrowserOptions.FullPage := true;
     ChromeBrowserOptions.AsPDF := Rq.AsPDF r;
     ChromeBrowserOptions.HeadersMap := Rq.Headers r;
     ChromeBrowserOptions.JsCode := "";
     ChromeBrowserOptions.Proxy := "";
     ChromeBrowserOptions.Headers := [];
     ChromeBrowserOptions.ScreenshotCodes := [] |}.

(** [ImageProcessor.chromeImage]. [Image] returns a nil image only
    together with an error, so [image.Data] is read from a non-nil
    image (lemma [Image_nil_only_with_error]). *)
Definition chromeImage (p : Op.t) (r : Rq.t)
    : M (list Byte.byte * option error) :=
  let options := chromeImage_options p r in
  match url_Parse env (Rq.URL r) with
  | inr err => mret ([], Some err)
  | inl u =>
    '(image, err) ← browser_exec.Image env options u;
    match err with
    | Some err => mret ([], Some err)
    | None =>
      mret (match image with
            | Some image => ChromeBrowserImage.Data image
            | None => []
            end, None)
    end
  end.

Definition http_Error (msg : string) (code : Z) : M unit :=
  emit (EvHttpError msg code).

Definition counter_Inc (name channel : string) : M unit :=
  emit (EvCounterInc name channel).

Definition ResponseWriter_Write (data : list Byte.byte)
    : M (option error) :=
  tr ← get_trace;
  let err := http_Write env tr data in
  emit (EvWrite data err);; mret err.

(** [ImageProcessor.HandleHttpRequest] *)
Definition HandleHttpRequest (p : Op.t) (r : http_Request.t)
    : M (option error) :=
  let channel := strings_TrimLeft (http_Request.URL_Path r) "/" in
  let requests := counter_Inc "requests" channel in
  let errs := counter_Inc "errors" channel in
  requests;;
  match http_Request.ParseForm_err r with
  | Some err =>
    errs;;
    http_Error (String.append "could not parse form: " (error_Error err))
               http_StatusInternalServerError;;
    mret (Some err)
  | None =>
    let '(request, err) := form_Decode env (http_Request.Form r) in
    match err with
    | Some err =>
      errs;;
      http_Error
        (String.append "could not decode form: " (error_Error err))
        http_StatusInternalServerError;;
      mret (Some err)
    | None =>
      let browser := Rq.Kind request in
      let browser :=
        if utils_IsEmpty env browser then "chrome" else browser in
      '(data, err) ←
        (match browser with
         | _ => chromeImage p request
         end);
      match err with
      | Some err =>
        errs;;
        http_Error
          (String.append "could not make image: " (error_Error err))
          http_StatusInternalServerError;;
        mret (Some err)
      | None =>
        werr ← ResponseWriter_Write data;
        match werr with
        | Some err =>
          errs;;
          http_Error
            (String.append "could not write response: "
                           (error_Error err))
            http_StatusInternalServerError;;
          mret (Some err)
        | None => mret None
        end
      end
    end
  end.
End ImageProcessor.
End image_processor.

(** ** package processor: ChromeProcessor.Screenshot *)

Module ChromeScreenshot.
Record t : Type := {
  data : list Byte.byte;
  dom : string
}.
End ChromeScreenshot.

Definition store_screenshot (r : ChromeScreenshot.t) (out : RunOutcome)
    : ChromeScreenshot.t :=
  {| ChromeScreenshot.data :=
       match run_buf out with
       | Some b => b
       | None => ChromeScreenshot.data r
       end;
     ChromeScreenshot.dom :=
       match run_dom out with
       | Some d => d
       | None => ChromeScreenshot.dom r
       end |}.

Module chrome_processor_exec.
Import ChromeProcessorOptions.
Import chromedp.

Section Screenshot.
Variable env : Env.

(** [ChromeProcessor.Screenshot] *)
Definition Screenshot (p : ChromeProcessorOptions.t) (url : url_URL)
    : M (option ChromeScreenshot.t * option error) :=
  func (
    let r := {| ChromeScreenshot.data := [];
                ChromeScreenshot.dom := "" |} in
    let options : list ExecAllocatorOption := [] in
    let options := options ++ [DefaultExecAllocatorOptions] in
    let options := options ++ [UserAgent (ChromeProcessorOptions.UserAgent p)] in
    let options := options ++ [DisableGPU] in
    let options := options ++ [Flag "ignore-certificate-errors" true] in
    let options := options ++ [WindowSize (Width p) (Height p)] in
    let options :=
      if negb (String.eqb (Path p) "")
      then options ++ [ExecPath (Path p)] else options in
    let options :=
      if negb (String.eqb (Proxy p) "")
      then options ++ [ProxyServer (Proxy p)] else options in
    actx ← chromedp_NewExecAllocator context_Background options;
    defer (EvCancel actx);;
    browserCtx ← chromedp_NewContext actx;
    defer (EvCancel browserCtx);;
    tabCtx ← context_WithTimeout browserCtx
               (time.mul (Timeout p) time.Second);
    defer (EvCancel tabCtx);;
    out0 ← chromedp_Run env browserCtx [];
    match run_err out0 with
    | Some err => mret (None, Some err)
    | None =>
      chromedp_ListenTarget browserCtx (OnTargetCrashed_cancel browserCtx);;
      chromedp_ListenTarget tabCtx (OnTargetCrashed_cancel tabCtx);;
      chromedp_ListenTarget tabCtx (OnJavascriptDialogOpening_accept tabCtx);;
      chromedp_ListenTarget tabCtx OnRuntimeEvent_log;;
      chromedp_ListenTarget tabCtx OnNetworkEvent_log;;
      out1 ← chromedp_Run env tabCtx
               (chrome_processor.buildTasks p url true);
      let r := store_screenshot r out1 in
      let err := run_err out1 in
      '(r, err) ←
        (if errors_Is err context_DeadlineExceeded then
           newTabCtx ← context_WithTimeout browserCtx
                         (time.mul (Timeout p) time.Second);
           defer (EvCancel newTabCtx);;
           chromedp_ListenTarget newTabCtx
             (OnTargetCrashed_cancel newTabCtx);;
           out2 ← chromedp_Run env newTabCtx
                    (chrome_processor.buildTasks p url false);
           mret (store_screenshot r out2, run_err out2)
         else mret (r, err));
      match err with
      | Some err => mret (None, Some err)
      | None => cancel tabCtx;; mret (Some r, None)
      end
    end).
End Screenshot.
End chrome_processor_exec.

(** ** Reading a trace *)

(** The [chromedp.Run] calls of a trace, in order. *)
Fixpoint runs (evs : list Event) : list (Ctx * Tasks * RunOutcome) :=
  match evs with
  | [] => []
  | EvRun ctx tasks out :: evs' => (ctx, tasks, out) :: runs evs'
  | _ :: evs' => runs evs'
  end.

(** The deadline-bound scopes opened in a trace: parent, duration, child. *)
Fixpoint timeouts (evs : list Event) : list (Ctx * Z * Ctx) :=
  match evs with
  | [] => []
  | EvWithTimeout parent d ctx :: evs' => (parent, d, ctx) :: timeouts evs'
  | _ :: evs' => timeouts evs'
  end.

(** The events a computation appended to the trace. *)
Definition new_events (w w' : World) : list Event :=
  drop (length (trace w)) (trace w').

(** * The design's vocabulary *)

(** ** The pipeline written the way the design describes it *)

Module pipeline_spec.
(** Rule 1: header interception, only when extra headers are requested. *)
Definition header_block (headers : gmap string any) : Tasks :=
  if decide (headers = ∅) then []
  else [network_Enable; network_SetExtraHTTPHeaders headers].

(** Rule 2: the navigation block of the primary pipeline. *)
Definition navigation_block (urlstr script : string) (delay : Z) : Tasks :=
  [chromedp_Navigate urlstr]
  ++ (if decide (script = "") then [] else [chromedp_Evaluate script])
  ++ (if decide (0 < delay) then
        [chromedp_Sleep (time.mul delay time.Second)]
      else [])
  ++ [chromedp_Stop].

(** Rule 3: the DOM capture. *)
Definition capture_dom : Action := chromedp_OuterHTML ":root" ByQueryAll.

(** Rule 4: the output capture, PDF first. *)
Definition output_capture (asPDF fullPage : bool) : Action :=
  if asPDF then page_PrintToPDF true
  else if fullPage then chromedp_FullScreenshot 100
  else chromedp_CaptureScreenshot.
End pipeline_spec.

Import pipeline_spec.

(** ** The ordering rules, as properties of a built pipeline *)

(** The pipeline ends with the one output capture that the precedence
    PDF, full page, viewport selects, and has no other output capture. *)
Definition ends_with_output_capture (asPDF fullPage : bool) (tasks : Tasks)
    : Prop :=
  let capture :=
    if asPDF then page_PrintToPDF true
    else if fullPage then chromedp_FullScreenshot 100
    else chromedp_CaptureScreenshot in
  last tasks = Some capture ∧ List.filter is_capture_step tasks = [capture].

(** After header steps only, the navigation block (present exactly when
    [nav] holds), then the DOM capture, then the output capture. *)
Definition navigation_rule (urlstr script : string) (delay : Z) (nav : bool)
    (tasks : Tasks) : Prop :=
  ∃ hs cap,
    Forall (λ a, is_header_step a = true) hs
    ∧ is_capture_step cap = true
    ∧ tasks =
      hs
      ++ (if nav then
            [chromedp_Navigate urlstr]
            ++ (if decide (script = "") then []
                else [chromedp_Evaluate script])
            ++ (if decide (0 < delay) then
                  [chromedp_Sleep (time.mul delay time.Second)]
                else [])
            ++ [chromedp_Stop]
          else [])
      ++ [chromedp_OuterHTML ":root" ByQueryAll; cap]
    ∧ (if nav then True else List.filter is_navigation_step tasks = []).

(** Header interception opens the pipeline when headers are requested and
    is absent otherwise. *)
Definition header_rule (headers : gmap string any) (tasks : Tasks) : Prop :=
  (headers ≠ ∅ →
   ∃ rest, tasks = network_Enable :: network_SetExtraHTTPHeaders headers
                   :: rest
           ∧ List.filter is_header_step rest = [])
  ∧ (headers = ∅ → List.filter is_header_step tasks = []).

(** The options of a [ChromeProcessor] read as options of a
    [ChromeBrowser], field by field. *)
Definition as_browser_options (p : ChromeProcessorOptions.t)
    : ChromeBrowserOptions.t :=
  {| ChromeBrowserOptions.Width := ChromeProcessorOptions.Width p;
     ChromeBrowserOptions.Height := ChromeProcessorOptions.Height p;
     ChromeBrowserOptions.UserAgent := ChromeProcessorOptions.UserAgent p;
     ChromeBrowserOptions.JsCode := ChromeProcessorOptions.JsCode p;
     ChromeBrowserOptions.Timeout := ChromeProcessorOptions.Timeout p;
     ChromeBrowserOptions.Delay := ChromeProcessorOptions.Delay p;
     ChromeBrowserOptions.FullPage := ChromeProcessorOptions.FullPage p;
     ChromeBrowserOptions.Path := ChromeProcessorOptions.Path p;
     ChromeBrowserOptions.Proxy := ChromeProcessorOptions.Proxy p;
     ChromeBrowserOptions.Headers := ChromeProcessorOptions.Headers p;
     ChromeBrowserOptions.HeadersMap := ChromeProcessorOptions.HeadersMap p;
     ChromeBrowserOptions.ScreenshotCodes :=
       ChromeProcessorOptions.ScreenshotCodes p;
     ChromeBrowserOptions.AsPDF := ChromeProcessorOptions.AsPDF p |}.

(** The allocator options both executors assemble. *)
Definition allocator_options (userAgent : string) (width height : Z)
    (path proxy : string) : list chromedp.ExecAllocatorOption :=
  let options := [chromedp.DefaultExecAllocatorOptions;
                  chromedp.UserAgent userAgent;
                  chromedp.DisableGPU;
                  chromedp.Flag "ignore-certificate-errors" true;
                  chromedp.WindowSize width height] in
  let options :=
    if negb (String.eqb path "") then options ++ [chromedp.ExecPath path]
    else options in
  if negb (String.eqb proxy "") then options ++ [chromedp.ProxyServer proxy]
  else options.

Section TwoAttempts.
Import chromedp.
Context {R : Type}.
Variables (env : Env) (opts : list ExecAllocatorOption) (d : Z)
          (primary fallback : Tasks) (st : R → RunOutcome → R) (r0 : R).

(** The control skeleton [Image] and [Screenshot] share: both are
    instances of it (lemmas [Image_two_attempts] and
    [Screenshot_two_attempts]), so it is analysed once. *)
Definition two_attempts : M (option R * option error) :=
  func (
    actx ← chromedp_NewExecAllocator context_Background opts;
    defer (EvCancel actx);;
    browserCtx ← chromedp_NewContext actx;
    defer (EvCancel browserCtx);;
    tabCtx ← context_WithTimeout browserCtx d;
    defer (EvCancel tabCtx);;
    out0 ← chromedp_Run env browserCtx [];
    match run_err out0 with
    | Some err => mret (None, Some err)
    | None =>
      chromedp_ListenTarget browserCtx (OnTargetCrashed_cancel browserCtx);;
      chromedp_ListenTarget tabCtx (OnTargetCrashed_cancel tabCtx);;
      chromedp_ListenTarget tabCtx (OnJavascriptDialogOpening_accept tabCtx);;
      chromedp_ListenTarget tabCtx OnRuntimeEvent_log;;
      chromedp_ListenTarget tabCtx OnNetworkEvent_log;;
      out1 ← chromedp_Run env tabCtx primary;
      let r := st r0 out1 in
      let err := run_err out1 in
      '(r, err) ←
        (if errors_Is err context_DeadlineExceeded then
           newTabCtx ← context_WithTimeout browserCtx d;
           defer (EvCancel newTabCtx);;
           chromedp_ListenTarget newTabCtx
             (OnTargetCrashed_cancel newTabCtx);;
           out2 ← chromedp_Run env newTabCtx fallback;
           mret (st r out2, run_err out2)
         else mret (r, err));
      match err with
      | Some err => mret (None, Some err)
      | None => cancel tabCtx;; mret (Some r, None)
      end
    end).

Section At.
Variable w : World.

(** The handles a run started in [w] allocates: allocator, browser
    scope, primary tab scope, fallback tab scope. *)
Local Abbreviation a := (next_ctx w).
Local Abbreviation b := (S (next_ctx w)).
Local Abbreviation t := (S (S (next_ctx w))).
Local Abbreviation n := (S (S (S (next_ctx w)))).

Definition ev_open : list Event :=
  [EvNewExecAllocator context_Background opts a; EvNewContext a b;
   EvWithTimeout b d t].
Definition out_launch : RunOutcome :=
  run_outcome env (trace w ++ ev_open) b [].
Definition ev_launch : list Event := ev_open ++ [EvRun b [] out_launch].
Definition ev_listen : list Event :=
  ev_launch ++
  [EvListenTarget b (OnTargetCrashed_cancel b);
   EvListenTarget t (OnTargetCrashed_cancel t);
   EvListenTarget t (OnJavascriptDialogOpening_accept t);
   EvListenTarget t OnRuntimeEvent_log;
   EvListenTarget t OnNetworkEvent_log].
Definition out_primary : RunOutcome :=
  run_outcome env (trace w ++ ev_listen) t primary.
Definition ev_primary : list Event :=
  ev_listen ++ [EvRun t primary out_primary].
Definition ev_reopen : list Event :=
  ev_primary ++
  [EvWithTimeout b d n; EvListenTarget n (OnTargetCrashed_cancel n)].
Definition out_fallback : RunOutcome :=
  run_outcome env (trace w ++ ev_reopen) n fallback.
Definition ev_fallback : list Event :=
  ev_reopen ++ [EvRun n fallback out_fallback].

Definition after (evs : list Event) (nx : Ctx) : World :=
  {| trace := trace w ++ evs; next_ctx := nx; deferred := deferred w |}.

(** What the three kinds of exit leave in the trace. *)
Inductive Exit (res : option R * option error) (evs : list Event)
    : Prop :=
| ExitLaunch (e : error) :
    run_err out_launch = Some e →
    res = (None, Some e) →
    runs evs = [(b, [], out_launch)] →
    timeouts evs = [(b, d, t)] →
    Exit res evs
| ExitPrimary :
    run_err out_launch = None →
    errors_Is (run_err out_primary) context_DeadlineExceeded = false →
    res = match run_err out_primary with
          | Some e => (None, Some e)
          | None => (Some (st r0 out_primary), None)
          end →
    runs evs = [(b, [], out_launch); (t, primary, out_primary)] →
    timeouts evs = [(b, d, t)] →
    Exit res evs
| ExitFallback :
    run_err out_launch = None →
    errors_Is (run_err out_primary) context_DeadlineExceeded = true →
    res = match run_err out_fallback with
          | Some e => (None, Some e)
          | None => (Some (st (st r0 out_primary) out_fallback), None)
          end →
    runs evs = [(b, [], out_launch); (t, primary, out_primary);
                (n, fallback, out_fallback)] →
    timeouts evs = [(b, d, t); (b, d, n)] →
    Exit res evs.

End At.
End TwoAttempts.

(** * Sample collaborators and requests *)

Module sample.
Module Rq := ImageProcessorRequest.
Module Op := ImageProcessorOptions.

Definition is_space (a : Ascii.ascii) : bool :=
  string_contains_char a " ".

(** Empty after trimming blanks. *)
Fixpoint IsEmpty (s : string) : bool :=
  match s with
  | EmptyString => true
  | String a s' => is_space a && IsEmpty s'
  end.

Definition form_value (form : url_Values) (key : string) : string :=
  match form !! key with
  | Some (v :: _) => v
  | _ => ""
  end.

(** A decoder that reads the url and the kind and leaves the rest
    unset. *)
Definition Decode (form : url_Values) : Rq.t * option error :=
  ({| Rq.URL := form_value form "url";
      Rq.Kind := form_value form "kind";
      Rq.Width := 0; Rq.Height := 0; Rq.UserAgent := "";
      Rq.Timeout := 0; Rq.Delay := 0; Rq.AsPDF := false;
      Rq.Headers := ∅ |}, None).

Definition nothing (err : option error) : RunOutcome :=
  {| run_err := err; run_buf := None; run_dom := None |}.

Definition captured : RunOutcome :=
  {| run_err := None;
     run_buf := Some [Byte.x89; Byte.x50; Byte.x4e; Byte.x47];
     run_dom := Some "<html></html>" |}.

(** A browser whose navigations fail with [failure]; the launch and
    captures without navigation succeed. *)
Definition browser_failing (failure : error) : Env :=
  {| run_outcome := λ _ _ tasks,
       match tasks with
       | [] => nothing None
       | _ => if existsb is_navigation_step tasks
              then nothing (Some failure) else captured
       end;
     url_Parse := λ s, inl {| URL_String := s |};
     utils_IsEmpty := IsEmpty;
     form_Decode := Decode;
     http_Write := λ _ _, None |}.

(** A page that never finishes loading. *)
Definition slow_page : Env := browser_failing context_DeadlineExceeded.

(** A host that cannot be resolved. *)
Definition unknown_host : Env :=
  browser_failing (errors_New "net::ERR_NAME_NOT_RESOLVED").

Definition url : url_URL := {| URL_String := "https://slow.example" |}.

Definition options : ChromeBrowserOptions.t :=
  {| ChromeBrowserOptions.Width := 1024;
     ChromeBrowserOptions.Height := 768;
     ChromeBrowserOptions.UserAgent := "webrender";
     ChromeBrowserOptions.JsCode := "";
     ChromeBrowserOptions.Timeout := 2;
     ChromeBrowserOptions.Delay := 0;
     ChromeBrowserOptions.FullPage := true;
     ChromeBrowserOptions.Path := "";
     ChromeBrowserOptions.Proxy := "";
     ChromeBrowserOptions.Headers := [];
     ChromeBrowserOptions.HeadersMap := ∅;
     ChromeBrowserOptions.ScreenshotCodes := [];
     ChromeBrowserOptions.AsPDF := false |}.

(** Options that exercise every rule of the builder. *)
Definition scripted : ChromeBrowserOptions.t :=
  {| ChromeBrowserOptions.Width := 1024;
     ChromeBrowserOptions.Height := 768;
     ChromeBrowserOptions.UserAgent := "webrender";
     ChromeBrowserOptions.JsCode := "window.scrollTo(0, 0)";
     ChromeBrowserOptions.Timeout := 5;
     ChromeBrowserOptions.Delay := 3;
     ChromeBrowserOptions.FullPage := true;
     ChromeBrowserOptions.Path := "";
     ChromeBrowserOptions.Proxy := "";
     ChromeBrowserOptions.Headers := [];
     ChromeBrowserOptions.HeadersMap :=
       {["Authorization" := AnyString "Bearer t"]};
     ChromeBrowserOptions.ScreenshotCodes := [];
     ChromeBrowserOptions.AsPDF := true |}.

Definition processor_options : ChromeProcessorOptions.t :=
  {| ChromeProcessorOptions.Width := 800;
     ChromeProcessorOptions.Height := 600;
     ChromeProcessorOptions.UserAgent := "chrome-processor";
     ChromeProcessorOptions.JsCode := "";
     ChromeProcessorOptions.Timeout := 30;
     ChromeProcessorOptions.Delay := 0;
     ChromeProcessorOptions.FullPage := true;
     ChromeProcessorOptions.Path := "/usr/bin/chromium";
     ChromeProcessorOptions.Proxy := "";
     ChromeProcessorOptions.Headers := [];
     ChromeProcessorOptions.HeadersMap := ∅;
     ChromeProcessorOptions.ScreenshotCodes := [];
     ChromeProcessorOptions.AsPDF := false |}.

Definition world0 : World :=
  {| trace := []; next_ctx := 1%nat; deferred := [] |}.

(** The configuration of [cmd/root.go], with IMAGE_AS_PDF set. *)
Definition configured_pdf : Op.t :=
  {| Op.Width := 1920; Op.Height := 1280; Op.UserAgent := "webrender";
     Op.Timeout := 10; Op.Delay := 3; Op.BrowserPath := "";
     Op.BrowserKind := "chrome"; Op.AsPDF := true |}.

(** A request that names only its URL. *)
Definition bare_request : Rq.t :=
  {| Rq.URL := "https://example.com"; Rq.Kind := "";
     Rq.Width := 0; Rq.Height := 0; Rq.UserAgent := "";
     Rq.Timeout := 0; Rq.Delay := 0; Rq.AsPDF := false;
     Rq.Headers := ∅ |}.

Definition http_request (kind : list string) : http_Request.t :=
  {| http_Request.URL_Path := "/image";
     http_Request.ParseForm_err := None;
     http_Request.Form :=
       <["kind" := kind]> {["url" := ["https://slow.example"]]} |}.
End sample.

(** The request [r] with its kind replaced. *)
Definition with_Kind (kind : string) (r : ImageProcessorRequest.t)
    : ImageProcessorRequest.t :=
  {| ImageProcessorRequest.URL := ImageProcessorRequest.URL r;
     ImageProcessorRequest.Kind := kind;
     ImageProcessorRequest.Width := ImageProcessorRequest.Width r;
     ImageProcessorRequest.Height := ImageProcessorRequest.Height r;
     ImageProcessorRequest.UserAgent := ImageProcessorRequest.UserAgent r;
     ImageProcessorRequest.Timeout := ImageProcessorRequest.Timeout r;
     ImageProcessorRequest.Delay := ImageProcessorRequest.Delay r;
     ImageProcessorRequest.AsPDF := ImageProcessorRequest.AsPDF r;
     ImageProcessorRequest.Headers := ImageProcessorRequest.Headers r |}.

(** * The rest of package processor, and more readers of a trace *)

Module chrome_processor_http.
Section Handler.
Variable env : Env.

(** [ChromeProcessor.HandleHttpRequest]: the request is read for its path
    only; the page rendered is fixed. *)
Definition HandleHttpRequest (p : ChromeProcessorOptions.t)
    (r : http_Request.t) : M (option error) :=
  let channel := strings_TrimLeft (http_Request.URL_Path r) "/" in
  let requests := image_processor.counter_Inc "requests" channel in
  let errs := image_processor.counter_Inc "errors" channel in
  requests;;
  match url_Parse env "https://google.com" with
  | inr err =>
    errs;;
    image_processor.http_Error
      (String.append "could not parse URL: " (error_Error err))
      http_StatusInternalServerError;;
    mret (Some err)
  | inl u =>
    '(ss, err) ← chrome_processor_exec.Screenshot env p u;
    match err with
    | Some err =>
      errs;;
      image_processor.http_Error
        (String.append "could not make screenshot: " (error_Error err))
        http_StatusInternalServerError;;
      mret (Some err)
    | None =>
      werr ← image_processor.ResponseWriter_Write env
               (match ss with
                | Some ss => ChromeScreenshot.data ss
                | None => []
                end);
      match werr with
      | Some err =>
        errs;;
        image_processor.http_Error
          (String.append "could not write response: " (error_Error err))
          http_StatusInternalServerError;;
        mret (Some err)
      | None => mret None
      end
    end
  end.
End Handler.
End chrome_processor_http.


(** The scope handles a trace created, in order of creation. *)
Fixpoint created (evs : list Event) : list Ctx :=
  match evs with
  | [] => []
  | EvNewExecAllocator _ _ ctx :: evs'
  | EvNewContext _ ctx :: evs'
  | EvWithTimeout _ _ ctx :: evs' => ctx :: created evs'
  | _ :: evs' => created evs'
  end.

(** The scope handles a trace cancelled, in order. *)
Fixpoint cancelled (evs : list Event) : list Ctx :=
  match evs with
  | [] => []
  | EvCancel ctx :: evs' => ctx :: cancelled evs'
  | _ :: evs' => cancelled evs'
  end.

(** The option lists browsers were launched with. *)
Fixpoint launches (evs : list Event)
    : list (list chromedp.ExecAllocatorOption) :=
  match evs with
  | [] => []
  | EvNewExecAllocator _ opts _ :: evs' => opts :: launches evs'
  | _ :: evs' => launches evs'
  end.

(** The listeners a trace registered, with their scopes. *)
Fixpoint listeners (evs : list Event) : list (Ctx * chromedp.Listener) :=
  match evs with
  | [] => []
  | EvListenTarget ctx l :: evs' => (ctx, l) :: listeners evs'
  | _ :: evs' => listeners evs'
  end.

(** Every run of a non-empty pipeline happens on a scope that already has
    a crash listener cancelling that scope; [guarded] holds the scopes
    protected so far. *)
Fixpoint crash_guarded (guarded : list Ctx) (evs : list Event) : bool :=
  match evs with
  | [] => true
  | EvListenTarget ctx (chromedp.OnTargetCrashed_cancel scope) :: evs' =>
    if Nat.eqb ctx scope then crash_guarded (ctx :: guarded) evs'
    else crash_guarded guarded evs'
  | EvRun ctx (_ :: _) _ :: evs' =>
    existsb (Nat.eqb ctx) guarded && crash_guarded guarded evs'
  | _ :: evs' => crash_guarded guarded evs'
  end.

(** The counters a trace incremented: name and channel label. *)
Fixpoint counters (evs : list Event) : list (string * string) :=
  match evs with
  | [] => []
  | EvCounterInc name channel :: evs' => (name, channel) :: counters evs'
  | _ :: evs' => counters evs'
  end.

(** The calls to [http.Error] of a trace: message and status. *)
Fixpoint http_errors (evs : list Event) : list (string * Z) :=
  match evs with
  | [] => []
  | EvHttpError msg code :: evs' => (msg, code) :: http_errors evs'
  | _ :: evs' => http_errors evs'
  end.

(** The response bodies a trace wrote, with the outcome of each write. *)
Fixpoint writes (evs : list Event)
    : list (list Byte.byte * option error) :=
  match evs with
  | [] => []
  | EvWrite data err :: evs' => (data, err) :: writes evs'
  | _ :: evs' => writes evs'
  end.

(** The character of the cutset ["/"] the handlers trim paths with. *)
Definition slash : Ascii.ascii :=
  Ascii.Ascii true true true true false true false false.

(** The step is not part of the navigation block. *)
Definition kept_by_fallback (a : Action) : bool :=
  negb (is_navigation_step a).

(** More sample collaborators and requests. *)
Module sample_more.
(** No browser can be started: every run fails. *)
Definition no_browser : Env :=
  {| run_outcome := λ _ _ _,
       sample.nothing (Some (errors_New "exec: chrome: not found"));
     url_Parse := λ s, inl {| URL_String := s |};
     utils_IsEmpty := sample.IsEmpty;
     form_Decode := sample.Decode;
     http_Write := λ _ _, None |}.

(** Every page loads in time. *)
Definition fast_page : Env :=
  {| run_outcome := λ _ _ tasks,
       match tasks with
       | [] => sample.nothing None
       | _ => sample.captured
       end;
     url_Parse := λ s, inl {| URL_String := s |};
     utils_IsEmpty := sample.IsEmpty;
     form_Decode := sample.Decode;
     http_Write := λ _ _, None |}.

(** A request with values of its own, two of them negative. *)
Definition odd_request : ImageProcessorRequest.t :=
  {| ImageProcessorRequest.URL := "https://example.com";
     ImageProcessorRequest.Kind := "chrome";
     ImageProcessorRequest.Width := -5;
     ImageProcessorRequest.Height := 600;
     ImageProcessorRequest.UserAgent := "curl/8";
     ImageProcessorRequest.Timeout := 30;
     ImageProcessorRequest.Delay := -1;
     ImageProcessorRequest.AsPDF := false;
     ImageProcessorRequest.Headers := ∅ |}.

(** A request whose form cannot be parsed. *)
Definition bad_form : http_Request.t :=
  {| http_Request.URL_Path := "//image";
     http_Request.ParseForm_err :=
       Some (errors_New "invalid semicolon separator in query");
     http_Request.Form := ∅ |}.

Definition slashed (kind : list string) : http_Request.t :=
  {| http_Request.URL_Path := "//image";
     http_Request.ParseForm_err := None;
     http_Request.Form :=
       <["kind" := kind]> {["url" := ["https://slow.example"]]} |}.
End sample_more.

(** * Properties of the pipeline builders *)

Lemma size_positive_nonempty (m : gmap string any) :
  (0 <? Z.of_nat (size m)) = bool_decide (m ≠ ∅).
Proof.
  destruct (decide (m = ∅)) as [->|Hne].
  - rewrite map_size_empty. rewrite bool_decide_eq_false_2; [easy | tauto].
  - rewrite bool_decide_eq_true_2 by assumption.
    apply Z.ltb_lt. apply map_size_non_empty_iff in Hne. lia.
Qed.

Lemma length_positive_nonempty (s : string) :
  (0 <? Z.of_nat (String.length s)) = bool_decide (s ≠ "").
Proof.
  destruct s as [|a s].
  - rewrite bool_decide_eq_false_2; [reflexivity | tauto].
  - rewrite bool_decide_eq_true_2 by discriminate.
    apply Z.ltb_lt. cbn [String.length]. lia.
Qed.

Lemma ltb_positive_decide (d : Z) : (0 <? d) = bool_decide (0 < d).
Proof.
  case_bool_decide; [apply Z.ltb_lt | apply Z.ltb_nlt]; assumption.
Qed.

(** The builder of [ChromeBrowser] produces the four blocks in order. *)
Lemma browser_buildTasks_blocks (c : ChromeBrowserOptions.t) (url : url_URL)
    (nav : bool) :
  browser.buildTasks c url nav =
  header_block (ChromeBrowserOptions.HeadersMap c)
  ++ (if nav then
        navigation_block (URL_String url) (ChromeBrowserOptions.JsCode c)
                         (ChromeBrowserOptions.Delay c)
      else [])
  ++ [capture_dom;
      output_capture (ChromeBrowserOptions.AsPDF c)
                     (ChromeBrowserOptions.FullPage c)].
Proof.
  unfold browser.buildTasks, header_block, navigation_block, capture_dom,
    output_capture.
  rewrite size_positive_nonempty, length_positive_nonempty,
    ltb_positive_decide.
  destruct nav, (ChromeBrowserOptions.AsPDF c),
    (ChromeBrowserOptions.FullPage c);
    repeat case_bool_decide; repeat case_decide;
    first [reflexivity | exfalso; tauto].
Qed.

Lemma processor_buildTasks_as_browser (p : ChromeProcessorOptions.t)
    (url : url_URL) (nav : bool) :
  chrome_processor.buildTasks p url nav =
  browser.buildTasks (as_browser_options p) url nav.
Proof. reflexivity. Qed.

Lemma header_block_steps (m : gmap string any) :
  List.filter is_header_step (header_block m) = header_block m
  ∧ List.filter is_navigation_step (header_block m) = []
  ∧ List.filter is_capture_step (header_block m) = []
  ∧ List.filter is_evaluate_step (header_block m) = [].
Proof. unfold header_block. destruct (decide (m = ∅)); auto. Qed.

Lemma navigation_block_steps (u s : string) (d : Z) :
  List.filter is_header_step (navigation_block u s d) = []
  ∧ List.filter is_navigation_step (navigation_block u s d)
    = navigation_block u s d
  ∧ List.filter is_capture_step (navigation_block u s d) = [].
Proof.
  unfold navigation_block.
  destruct (decide (s = "")), (decide (0 < d)); auto.
Qed.

Lemma output_capture_is_capture (asPDF fullPage : bool) :
  is_capture_step (output_capture asPDF fullPage) = true
  ∧ is_header_step (output_capture asPDF fullPage) = false
  ∧ is_navigation_step (output_capture asPDF fullPage) = false
  ∧ is_evaluate_step (output_capture asPDF fullPage) = false.
Proof. destruct asPDF, fullPage; auto. Qed.

Lemma blocks_end_with_output_capture (hs ns : Tasks) (asPDF fullPage : bool) :
  List.filter is_capture_step hs = [] →
  List.filter is_capture_step ns = [] →
  ends_with_output_capture asPDF fullPage
    (hs ++ ns ++ [capture_dom; output_capture asPDF fullPage]).
Proof.
  intros Hh Hn. unfold ends_with_output_capture. split.
  - change [capture_dom; output_capture asPDF fullPage]
      with ([capture_dom] ++ [output_capture asPDF fullPage]).
    rewrite !app_assoc. apply last_snoc.
  - rewrite !List.filter_app, Hh, Hn. cbn [app List.filter capture_dom
      is_capture_step].
    destruct (output_capture_is_capture asPDF fullPage) as [-> _].
    reflexivity.
Qed.

Lemma browser_buildTasks_ends (c : ChromeBrowserOptions.t) (url : url_URL)
    (nav : bool) :
  ends_with_output_capture (ChromeBrowserOptions.AsPDF c)
    (ChromeBrowserOptions.FullPage c) (browser.buildTasks c url nav).
Proof.
  rewrite browser_buildTasks_blocks.
  apply blocks_end_with_output_capture.
  - apply header_block_steps.
  - destruct nav; [apply navigation_block_steps | reflexivity].
Qed.

(** C2: whatever the options and the navigate flag, the pipeline of either
    builder ends with exactly one output capture: PrintToPDF with header
    and footer when asPDF is set (whatever fullPage is), else the full-page
    screenshot when fullPage is set, else the viewport screenshot. *)
Theorem buildTasks_output_capture_precedence
    (c : ChromeBrowserOptions.t) (p : ChromeProcessorOptions.t)
    (url : url_URL) (nav : bool) :
  ends_with_output_capture (ChromeBrowserOptions.AsPDF c)
    (ChromeBrowserOptions.FullPage c) (browser.buildTasks c url nav)
  ∧ ends_with_output_capture (ChromeProcessorOptions.AsPDF p)
      (ChromeProcessorOptions.FullPage p)
      (chrome_processor.buildTasks p url nav).
Proof.
  split.
  - apply browser_buildTasks_ends.
  - rewrite processor_buildTasks_as_browser.
    apply (browser_buildTasks_ends (as_browser_options p)).
Qed.

Lemma header_block_Forall (m : gmap string any) :
  Forall (λ a, is_header_step a = true) (header_block m).
Proof.
  unfold header_block. destruct (decide (m = ∅)); repeat constructor.
Qed.

Lemma browser_buildTasks_navigation (c : ChromeBrowserOptions.t)
    (url : url_URL) (nav : bool) :
  navigation_rule (URL_String url) (ChromeBrowserOptions.JsCode c)
    (ChromeBrowserOptions.Delay c) nav (browser.buildTasks c url nav).
Proof.
  exists (header_block (ChromeBrowserOptions.HeadersMap c)),
    (output_capture (ChromeBrowserOptions.AsPDF c)
                    (ChromeBrowserOptions.FullPage c)).
  split; [apply header_block_Forall|].
  split; [apply output_capture_is_capture|].
  split; [apply browser_buildTasks_blocks|].
  destruct nav; [exact I|].
  rewrite browser_buildTasks_blocks, !List.filter_app.
  destruct (header_block_steps (ChromeBrowserOptions.HeadersMap c))
    as (_ & -> & _).
  cbn [app List.filter capture_dom is_navigation_step].
  destruct (output_capture_is_capture (ChromeBrowserOptions.AsPDF c)
              (ChromeBrowserOptions.FullPage c)) as (_ & _ & -> & _).
  reflexivity.
Qed.

(** C3: with navigate set, the pipeline of either builder is, after header
    steps only, Navigate(url), Evaluate(script) when a script is given,
    Sleep(delay) when delay > 0, Stop; with navigate unset it has none of
    these steps; in both cases the DOM capture of the root element comes
    immediately before the output capture, which ends the pipeline. *)
Theorem buildTasks_navigation_block
    (c : ChromeBrowserOptions.t) (p : ChromeProcessorOptions.t)
    (url : url_URL) (nav : bool) :
  navigation_rule (URL_String url) (ChromeBrowserOptions.JsCode c)
    (ChromeBrowserOptions.Delay c) nav (browser.buildTasks c url nav)
  ∧ navigation_rule (URL_String url) (ChromeProcessorOptions.JsCode p)
      (ChromeProcessorOptions.Delay p) nav
      (chrome_processor.buildTasks p url nav).
Proof.
  split.
  - apply browser_buildTasks_navigation.
  - rewrite processor_buildTasks_as_browser.
    apply (browser_buildTasks_navigation (as_browser_options p)).
Qed.

Lemma browser_buildTasks_headers (c : ChromeBrowserOptions.t)
    (url : url_URL) (nav : bool) :
  header_rule (ChromeBrowserOptions.HeadersMap c)
    (browser.buildTasks c url nav).
Proof.
  rewrite browser_buildTasks_blocks.
  assert (Hrest :
    List.filter is_header_step
      ((if nav then
          navigation_block (URL_String url) (ChromeBrowserOptions.JsCode c)
            (ChromeBrowserOptions.Delay c)
        else [])
       ++ [capture_dom;
           output_capture (ChromeBrowserOptions.AsPDF c)
                          (ChromeBrowserOptions.FullPage c)]) = []).
  { rewrite List.filter_app.
    replace (List.filter is_header_step
               (if nav then
                  navigation_block (URL_String url)
                    (ChromeBrowserOptions.JsCode c)
                    (ChromeBrowserOptions.Delay c)
                else [])) with (@nil Action)
      by (destruct nav;
          [symmetry; apply navigation_block_steps | reflexivity]).
    cbn [app List.filter capture_dom is_header_step].
    destruct (output_capture_is_capture (ChromeBrowserOptions.AsPDF c)
                (ChromeBrowserOptions.FullPage c)) as (_ & -> & _).
    reflexivity. }
  unfold header_rule, header_block. split; intros Hm.
  - rewrite decide_False by assumption. eexists. split; [reflexivity|].
    exact Hrest.
  - rewrite decide_True by assumption. exact Hrest.
Qed.

(** C4: with a non-empty headers map the pipeline of either builder begins
    with network.Enable followed by SetExtraHTTPHeaders(headers), and has
    no further header step; with an empty map it has no header step. *)
Theorem buildTasks_header_interception
    (c : ChromeBrowserOptions.t) (p : ChromeProcessorOptions.t)
    (url : url_URL) (nav : bool) :
  header_rule (ChromeBrowserOptions.HeadersMap c)
    (browser.buildTasks c url nav)
  ∧ header_rule (ChromeProcessorOptions.HeadersMap p)
      (chrome_processor.buildTasks p url nav).
Proof.
  split.
  - apply browser_buildTasks_headers.
  - rewrite processor_buildTasks_as_browser.
    apply (browser_buildTasks_headers (as_browser_options p)).
Qed.

(** C8: on options that agree on the headers map, the script, the delay,
    asPDF and fullPage, the two builders produce the same sequence of
    steps for the same URL and navigate flag. *)
Theorem buildTasks_duplicates_agree
    (p : ChromeProcessorOptions.t) (c : ChromeBrowserOptions.t)
    (url : url_URL) (nav : bool) :
  ChromeProcessorOptions.HeadersMap p = ChromeBrowserOptions.HeadersMap c →
  ChromeProcessorOptions.JsCode p = ChromeBrowserOptions.JsCode c →
  ChromeProcessorOptions.Delay p = ChromeBrowserOptions.Delay c →
  ChromeProcessorOptions.AsPDF p = ChromeBrowserOptions.AsPDF c →
  ChromeProcessorOptions.FullPage p = ChromeBrowserOptions.FullPage c →
  chrome_processor.buildTasks p url nav = browser.buildTasks c url nav.
Proof.
  intros Hh Hj Hd Ha Hf.
  unfold chrome_processor.buildTasks, browser.buildTasks.
  rewrite Hh, Hj, Hd, Ha, Hf. reflexivity.
Qed.


Lemma runs_app (xs ys : list Event) : runs (xs ++ ys) = runs xs ++ runs ys.
Proof.
  induction xs as [|x xs IH]; [reflexivity|].
  destruct x; cbn [app runs]; rewrite IH; reflexivity.
Qed.

Lemma timeouts_app (xs ys : list Event) :
  timeouts (xs ++ ys) = timeouts xs ++ timeouts ys.
Proof.
  induction xs as [|x xs IH]; [reflexivity|].
  destruct x; cbn [app timeouts]; rewrite IH; reflexivity.
Qed.

Lemma new_events_app (w w' : World) (evs : list Event) :
  trace w' = trace w ++ evs → new_events w w' = evs.
Proof.
  intros H. unfold new_events. rewrite H. apply drop_app_length.
Qed.

(** * Properties of the capture executor *)

Section TwoAttemptsFacts.
Import chromedp.
Context {R : Type}.
Variables (env : Env) (opts : list ExecAllocatorOption) (d : Z)
          (primary fallback : Tasks) (st : R → RunOutcome → R) (r0 : R).
Variable w : World.

Local Abbreviation a := (next_ctx w).
Local Abbreviation b := (S (next_ctx w)).
Local Abbreviation t := (S (S (next_ctx w))).
Local Abbreviation n := (S (S (S (next_ctx w)))).
Local Abbreviation o_launch := (out_launch env opts d w).
Local Abbreviation o_primary := (out_primary env opts d primary w).
Local Abbreviation o_fallback :=
  (out_fallback env opts d primary fallback w).
Local Abbreviation e_launch := (ev_launch env opts d w).
Local Abbreviation e_primary := (ev_primary env opts d primary w).
Local Abbreviation e_fallback :=
  (ev_fallback env opts d primary fallback w).
Local Abbreviation run := (two_attempts env opts d primary fallback st r0).

(** Symbolic execution of the skeleton: its four exits. *)
Lemma two_attempts_cases :
  run w =
  match run_err o_launch with
  | Some e =>
    (None, Some e,
     after w (e_launch ++ [EvCancel t; EvCancel b; EvCancel a]) n)
  | None =>
    if errors_Is (run_err o_primary) context_DeadlineExceeded then
      match run_err o_fallback with
      | Some e =>
        (None, Some e,
         after w (e_fallback
                  ++ [EvCancel n; EvCancel t; EvCancel b; EvCancel a])
               (S n))
      | None =>
        (Some (st (st r0 o_primary) o_fallback), None,
         after w (e_fallback
                  ++ [EvCancel t; EvCancel n; EvCancel t; EvCancel b;
                      EvCancel a])
               (S n))
      end
    else
      match run_err o_primary with
      | Some e =>
        (None, Some e,
         after w (e_primary ++ [EvCancel t; EvCancel b; EvCancel a]) n)
      | None =>
        (Some (st r0 o_primary), None,
         after w (e_primary
                  ++ [EvCancel t; EvCancel t; EvCancel b; EvCancel a]) n)
      end
  end.
Proof.
  unfold two_attempts.
  cbv [func mbind M_bind mret M_ret chromedp_NewExecAllocator
       chromedp_NewContext context_WithTimeout chromedp_Run
       chromedp_ListenTarget cancel emit fresh defer get_trace].
  cbn [trace next_ctx deferred].
  unfold out_fallback, ev_fallback, ev_reopen, out_primary, ev_primary,
    ev_listen, ev_launch, out_launch, ev_open, after.
  rewrite <- !app_assoc. cbn [app].
  destruct (run_err (run_outcome env _ _ [])) eqn:E0;
    cbn [trace next_ctx deferred]; rewrite <- ?app_assoc; cbn [app].
  - reflexivity.
  - destruct (errors_Is _ _) eqn:E1;
      cbn [trace next_ctx deferred]; rewrite <- ?app_assoc; cbn [app].
    + destruct (run_err (run_outcome env _ _ fallback)) eqn:E2;
        cbn [trace next_ctx deferred]; rewrite <- ?app_assoc;
        cbn [app]; reflexivity.
    + destruct (run_err (run_outcome env _ _ primary)) eqn:E2;
        cbn [trace next_ctx deferred]; rewrite <- ?app_assoc;
        cbn [app]; reflexivity.
Qed.

Lemma two_attempts_exit (res : option R * option error) (w' : World) :
  run w = (res, w') →
  Exit env opts d primary fallback st r0 w res (new_events w w')
  ∧ deferred w' = deferred w.
Proof.
  rewrite two_attempts_cases.
  destruct (run_err o_launch) as [e0|] eqn:E0.
  - intros [= <- <-]. split; [|reflexivity].
    erewrite new_events_app by reflexivity.
    eapply ExitLaunch; eauto.
  - destruct (errors_Is (run_err o_primary) context_DeadlineExceeded)
      eqn:E1.
    + destruct (run_err o_fallback) as [e2|] eqn:E2;
        intros [= <- <-]; (split; [|reflexivity]);
        erewrite new_events_app by reflexivity;
        apply ExitFallback; rewrite ?E2; auto.
    + destruct (run_err o_primary) as [e1|] eqn:E2;
        intros [= <- <-]; (split; [|reflexivity]);
        erewrite new_events_app by reflexivity;
        apply ExitPrimary; rewrite ?E2; auto.
Qed.

(** A run extends the trace. *)
Lemma two_attempts_extends (res : option R * option error) (w' : World) :
  run w = (res, w') → ∃ evs, trace w' = trace w ++ evs.
Proof.
  rewrite two_attempts_cases.
  destruct (run_err o_launch);
    [|destruct (errors_Is _ _);
      [destruct (run_err o_fallback)|destruct (run_err o_primary)]];
    intros [= <- <-]; eexists; reflexivity.
Qed.

Ltac split_runs H :=
  repeat (apply elem_of_cons in H as [H|H]);
  try (apply elem_of_nil in H; contradiction);
  try (inversion H; clear H); subst.

(** A deadline on the primary run: one more scope with the same
    duration, one run of the fallback pipeline, whose error (or none)
    is the result's. *)
Lemma two_attempts_deadline (res : option R * option error) (w' : World)
    (ctx1 : Ctx) (out1 : RunOutcome) :
  primary ≠ [] → fallback ≠ primary →
  run w = (res, w') →
  (ctx1, primary, out1) ∈ runs (new_events w w') →
  errors_Is (run_err out1) context_DeadlineExceeded = true →
  ∃ ctx0 out0 parent ctx2 out2,
    runs (new_events w w')
    = [(ctx0, [], out0); (ctx1, primary, out1); (ctx2, fallback, out2)]
    ∧ timeouts (new_events w w') = [(parent, d, ctx1); (parent, d, ctx2)]
    ∧ ctx1 ≠ ctx2
    ∧ res = match run_err out2 with
            | Some e => (None, Some e)
            | None => (Some (st (st r0 out1) out2), None)
            end.
Proof.
  intros Hne Hdiff Hrun Hin Hdl.
  destruct (two_attempts_exit _ _ Hrun) as [Hexit _].
  destruct Hexit as [e H0 Hres Hruns Hto
                    |H0 H1 Hres Hruns Hto
                    |H0 H1 Hres Hruns Hto];
    rewrite Hruns in Hin; split_runs Hin; try congruence.
  exists b, o_launch, b, n, o_fallback.
  rewrite Hruns, Hto. repeat split; try assumption. lia.
Qed.

(** Any other outcome of the primary run: no second scope, no second
    run; the primary's error (or none) is the result's. *)
Lemma two_attempts_no_deadline (res : option R * option error) (w' : World)
    (ctx1 : Ctx) (out1 : RunOutcome) :
  primary ≠ [] → fallback ≠ primary →
  run w = (res, w') →
  (ctx1, primary, out1) ∈ runs (new_events w w') →
  errors_Is (run_err out1) context_DeadlineExceeded = false →
  ∃ ctx0 out0 parent,
    runs (new_events w w') = [(ctx0, [], out0); (ctx1, primary, out1)]
    ∧ timeouts (new_events w w') = [(parent, d, ctx1)]
    ∧ res = match run_err out1 with
            | Some e => (None, Some e)
            | None => (Some (st r0 out1), None)
            end.
Proof.
  intros Hne Hdiff Hrun Hin Hdl.
  destruct (two_attempts_exit _ _ Hrun) as [Hexit _].
  destruct Hexit as [e H0 Hres Hruns Hto
                    |H0 H1 Hres Hruns Hto
                    |H0 H1 Hres Hruns Hto];
    rewrite Hruns in Hin; split_runs Hin; try congruence.
  exists b, o_launch, b.
  rewrite Hruns, Hto. repeat split; assumption.
Qed.

(** The fallback pipeline runs only after a deadline on the primary. *)
Lemma two_attempts_fallback_cause (res : option R * option error)
    (w' : World) (ctx2 : Ctx) (out2 : RunOutcome) :
  fallback ≠ [] → fallback ≠ primary →
  run w = (res, w') →
  (ctx2, fallback, out2) ∈ runs (new_events w w') →
  ∃ ctx1 out1,
    (ctx1, primary, out1) ∈ runs (new_events w w')
    ∧ errors_Is (run_err out1) context_DeadlineExceeded = true.
Proof.
  intros Hne Hdiff Hrun Hin.
  destruct (two_attempts_exit _ _ Hrun) as [Hexit _].
  destruct Hexit as [e H0 Hres Hruns Hto
                    |H0 H1 Hres Hruns Hto
                    |H0 H1 Hres Hruns Hto];
    rewrite Hruns in Hin |- *; split_runs Hin; try congruence.
  exists t, o_primary. split; [|assumption].
  apply elem_of_cons; right. apply elem_of_cons; left. reflexivity.
Qed.

(** Every run of a trace carries no tasks (the launch) or one of the
    two pipelines. *)
Lemma two_attempts_run_tasks (res : option R * option error) (w' : World)
    (ctx : Ctx) (tasks : Tasks) (out : RunOutcome) :
  run w = (res, w') →
  (ctx, tasks, out) ∈ runs (new_events w w') →
  tasks = [] ∨ tasks = primary ∨ tasks = fallback.
Proof.
  intros Hrun Hin.
  destruct (two_attempts_exit _ _ Hrun) as [Hexit _].
  destruct Hexit as [e H0 Hres Hruns Hto
                    |H0 H1 Hres Hruns Hto
                    |H0 H1 Hres Hruns Hto];
    rewrite Hruns in Hin; split_runs Hin; auto.
Qed.

(** The result is nil exactly when an error is returned. *)
Lemma two_attempts_nil_only_with_error (res : option R * option error)
    (w' : World) :
  run w = (res, w') → (res.1 = None ↔ res.2 ≠ None).
Proof.
  rewrite two_attempts_cases.
  destruct (run_err o_launch);
    [|destruct (errors_Is _ _);
      [destruct (run_err o_fallback)|destruct (run_err o_primary)]];
    intros [= <- <-]; cbn; split; congruence.
Qed.
End TwoAttemptsFacts.

(** ** The two executors are instances of the skeleton *)

Lemma Image_two_attempts (env : Env) (c : ChromeBrowserOptions.t)
    (url : url_URL) :
  browser_exec.Image env c url =
  two_attempts env
    (allocator_options (ChromeBrowserOptions.UserAgent c)
       (ChromeBrowserOptions.Width c) (ChromeBrowserOptions.Height c)
       (ChromeBrowserOptions.Path c) (ChromeBrowserOptions.Proxy c))
    (time.mul (ChromeBrowserOptions.Timeout c) time.Second)
    (browser.buildTasks c url true) (browser.buildTasks c url false)
    store
    {| ChromeBrowserImage.Data := []; ChromeBrowserImage.DOM := "" |}.
Proof. reflexivity. Qed.

Lemma Screenshot_two_attempts (env : Env) (p : ChromeProcessorOptions.t)
    (url : url_URL) :
  chrome_processor_exec.Screenshot env p url =
  two_attempts env
    (allocator_options (ChromeProcessorOptions.UserAgent p)
       (ChromeProcessorOptions.Width p) (ChromeProcessorOptions.Height p)
       (ChromeProcessorOptions.Path p) (ChromeProcessorOptions.Proxy p))
    (time.mul (ChromeProcessorOptions.Timeout p) time.Second)
    (chrome_processor.buildTasks p url true)
    (chrome_processor.buildTasks p url false)
    store_screenshot
    {| ChromeScreenshot.data := []; ChromeScreenshot.dom := "" |}.
Proof. reflexivity. Qed.

(** [Image] returns a nil image exactly when it returns an error. *)
Lemma Image_nil_only_with_error (env : Env) (c : ChromeBrowserOptions.t)
    (url : url_URL) (w w' : World)
    (res : option ChromeBrowserImage.t * option error) :
  browser_exec.Image env c url w = (res, w') →
  (res.1 = None ↔ res.2 ≠ None).
Proof.
  rewrite Image_two_attempts. apply two_attempts_nil_only_with_error.
Qed.

Lemma browser_buildTasks_nonempty (c : ChromeBrowserOptions.t)
    (url : url_URL) (nav : bool) :
  browser.buildTasks c url nav ≠ [].
Proof.
  intros H. destruct (browser_buildTasks_ends c url nav) as [Hl _].
  rewrite H in Hl. discriminate.
Qed.

Lemma browser_buildTasks_navigation_steps (c : ChromeBrowserOptions.t)
    (url : url_URL) :
  List.filter is_navigation_step (browser.buildTasks c url false) = []
  ∧ List.filter is_navigation_step (browser.buildTasks c url true) ≠ [].
Proof.
  split.
  - destruct (browser_buildTasks_navigation c url false)
      as (hs & cap & _ & _ & _ & H). exact H.
  - rewrite browser_buildTasks_blocks, !List.filter_app.
    destruct (navigation_block_steps (URL_String url)
                (ChromeBrowserOptions.JsCode c)
                (ChromeBrowserOptions.Delay c)) as (_ & -> & _).
    destruct (header_block_steps (ChromeBrowserOptions.HeadersMap c))
      as (_ & -> & _).
    unfold navigation_block. cbn [app]. discriminate.
Qed.

Lemma browser_buildTasks_fallback_differs (c : ChromeBrowserOptions.t)
    (url : url_URL) :
  browser.buildTasks c url false ≠ browser.buildTasks c url true.
Proof.
  intros H.
  destruct (browser_buildTasks_navigation_steps c url) as [H0 H1].
  rewrite H in H0. contradiction.
Qed.

(** C1: when the primary run of [Image] (the pipeline built with navigate
    set) returns an error that is a deadline-exceeded error, the trace
    holds exactly one more run, of the pipeline built with navigate unset,
    under a second scope opened from the same parent with the same
    duration; the result is the image with no error when that run
    succeeds, and nil with that run's error when it fails. *)
Theorem Image_deadline_runs_one_fallback (env : Env)
    (c : ChromeBrowserOptions.t) (url : url_URL) (w w' : World)
    (res : option ChromeBrowserImage.t * option error)
    (ctx1 : Ctx) (out1 : RunOutcome) :
  browser_exec.Image env c url w = (res, w') →
  (ctx1, browser.buildTasks c url true, out1) ∈ runs (new_events w w') →
  errors_Is (run_err out1) context_DeadlineExceeded = true →
  ∃ ctx0 out0 parent ctx2 out2,
    runs (new_events w w')
    = [(ctx0, [], out0);
       (ctx1, browser.buildTasks c url true, out1);
       (ctx2, browser.buildTasks c url false, out2)]
    ∧ timeouts (new_events w w')
      = [(parent, time.mul (ChromeBrowserOptions.Timeout c) time.Second,
          ctx1);
         (parent, time.mul (ChromeBrowserOptions.Timeout c) time.Second,
          ctx2)]
    ∧ ctx1 ≠ ctx2
    ∧ res = match run_err out2 with
            | Some e => (None, Some e)
            | None =>
              (Some (store
                       (store {| ChromeBrowserImage.Data := [];
                                 ChromeBrowserImage.DOM := "" |} out1)
                       out2), None)
            end.
Proof.
  rewrite Image_two_attempts. intros Hrun Hin Hdl.
  eapply two_attempts_deadline; eauto using browser_buildTasks_nonempty,
    browser_buildTasks_fallback_differs.
Qed.

(** X9: the deadline fallback of [ChromeProcessor.Screenshot]: after a
    primary run that hit the deadline, exactly one more run, of the
    pipeline built without navigation, under a second scope with the same
    parent and duration; the result is the screenshot with no error when
    that run succeeds and nil with that run's error when it fails. *)
Lemma Screenshot_deadline_runs_one_fallback (env : Env)
    (p : ChromeProcessorOptions.t) (url : url_URL) (w w' : World)
    (res : option ChromeScreenshot.t * option error)
    (ctx1 : Ctx) (out1 : RunOutcome) :
  chrome_processor_exec.Screenshot env p url w = (res, w') →
  (ctx1, chrome_processor.buildTasks p url true, out1)
    ∈ runs (new_events w w') →
  errors_Is (run_err out1) context_DeadlineExceeded = true →
  ∃ ctx0 out0 parent ctx2 out2,
    runs (new_events w w')
    = [(ctx0, [], out0);
       (ctx1, chrome_processor.buildTasks p url true, out1);
       (ctx2, chrome_processor.buildTasks p url false, out2)]
    ∧ timeouts (new_events w w')
      = [(parent, time.mul (ChromeProcessorOptions.Timeout p) time.Second,
          ctx1);
         (parent, time.mul (ChromeProcessorOptions.Timeout p) time.Second,
          ctx2)]
    ∧ ctx1 ≠ ctx2
    ∧ res = match run_err out2 with
            | Some e => (None, Some e)
            | None =>
              (Some (store_screenshot
                       (store_screenshot
                          {| ChromeScreenshot.data := [];
                             ChromeScreenshot.dom := "" |} out1)
                       out2), None)
            end.
Proof.
  rewrite Screenshot_two_attempts. intros Hrun Hin Hdl.
  eapply two_attempts_deadline; eauto;
    rewrite !processor_buildTasks_as_browser;
    auto using browser_buildTasks_nonempty,
      browser_buildTasks_fallback_differs.
Qed.

(** C5: when the primary run of [Image] returns an error that is not a
    deadline-exceeded error, [Image] returns nil and that very error, and
    the trace holds no further run and no second scope; a run of the
    fallback pipeline only ever follows a primary run that hit the
    deadline. *)
Theorem Image_other_errors_propagate (env : Env)
    (c : ChromeBrowserOptions.t) (url : url_URL) (w w' : World)
    (res : option ChromeBrowserImage.t * option error) :
  browser_exec.Image env c url w = (res, w') →
  (∀ ctx1 out1 e,
     (ctx1, browser.buildTasks c url true, out1) ∈ runs (new_events w w') →
     run_err out1 = Some e →
     errors_Is (Some e) context_DeadlineExceeded = false →
     res = (None, Some e)
     ∧ (∃ ctx0 out0,
          runs (new_events w w')
          = [(ctx0, [], out0); (ctx1, browser.buildTasks c url true, out1)])
     ∧ (∃ parent,
          timeouts (new_events w w')
          = [(parent,
              time.mul (ChromeBrowserOptions.Timeout c) time.Second,
              ctx1)]))
  ∧ (∀ ctx2 out2,
       (ctx2, browser.buildTasks c url false, out2)
         ∈ runs (new_events w w') →
       ∃ ctx1 out1,
         (ctx1, browser.buildTasks c url true, out1)
           ∈ runs (new_events w w')
         ∧ errors_Is (run_err out1) context_DeadlineExceeded = true).
Proof.
  rewrite Image_two_attempts. intros Hrun. split.
  - intros ctx1 out1 e Hin He Hnd.
    destruct (two_attempts_no_deadline _ _ _ _ _ _ _ _ _ _ _ _
                (browser_buildTasks_nonempty c url true)
                (browser_buildTasks_fallback_differs c url)
                Hrun Hin) as (ctx0 & out0 & parent & Hruns & Hto & Hres).
    { rewrite He. exact Hnd. }
    rewrite He in Hres. split; [exact Hres|]. split; eauto.
  - intros ctx2 out2 Hin.
    eapply two_attempts_fallback_cause; eauto using
      browser_buildTasks_nonempty, browser_buildTasks_fallback_differs.
Qed.

(** * Properties of the image processor *)

Section ImageProcessorFacts.
Variable env : Env.
Import image_processor.

(** X12: the defaults [chromeImage] does apply: a zero width, height,
    timeout or delay of the request and an empty user agent are replaced
    by the configured values. *)
Lemma chromeImage_options_defaults (p : Op.t) (r : Rq.t) :
  (Rq.Width r = 0 →
   ChromeBrowserOptions.Width (chromeImage_options env p r) = Op.Width p)
  ∧ (Rq.Height r = 0 →
     ChromeBrowserOptions.Height (chromeImage_options env p r)
     = Op.Height p)
  ∧ (Rq.Timeout r = 0 →
     ChromeBrowserOptions.Timeout (chromeImage_options env p r)
     = Op.Timeout p)
  ∧ (Rq.Delay r = 0 →
     ChromeBrowserOptions.Delay (chromeImage_options env p r)
     = Op.Delay p)
  ∧ (utils_IsEmpty env (Rq.UserAgent r) = true →
     ChromeBrowserOptions.UserAgent (chromeImage_options env p r)
     = Op.UserAgent p).
Proof.
  unfold chromeImage_options; cbn.
  repeat split; intros ->; reflexivity.
Qed.

(** The configured default of asPDF is never read: the request's own
    flag is passed on, set or not. *)
Lemma chromeImage_options_AsPDF (p : Op.t) (r : Rq.t) :
  ChromeBrowserOptions.AsPDF (chromeImage_options env p r) = Rq.AsPDF r.
Proof. reflexivity. Qed.

Lemma chromeImage_options_FullPage (p : Op.t) (r : Rq.t) :
  ChromeBrowserOptions.FullPage (chromeImage_options env p r) = true.
Proof. reflexivity. Qed.

Lemma chromeImage_options_JsCode (p : Op.t) (r : Rq.t) :
  ChromeBrowserOptions.JsCode (chromeImage_options env p r) = "".
Proof. reflexivity. Qed.

(** [chromeImage] does not read the kind of the request. *)
Lemma chromeImage_ignores_Kind (p : Op.t) (r1 r2 : Rq.t) :
  Rq.URL r1 = Rq.URL r2 → Rq.Width r1 = Rq.Width r2 →
  Rq.Height r1 = Rq.Height r2 → Rq.UserAgent r1 = Rq.UserAgent r2 →
  Rq.Timeout r1 = Rq.Timeout r2 → Rq.Delay r1 = Rq.Delay r2 →
  Rq.AsPDF r1 = Rq.AsPDF r2 → Rq.Headers r1 = Rq.Headers r2 →
  chromeImage env p r1 = chromeImage env p r2.
Proof.
  intros Hu Hw Hh Ha Ht Hd Hp Hm.
  unfold chromeImage, chromeImage_options.
  rewrite Hu, Hw, Hh, Ha, Ht, Hd, Hp, Hm. reflexivity.
Qed.

(** The runs [chromeImage] leaves in the trace are those of [Image] on
    the options it built. *)
Lemma chromeImage_trace (p : Op.t) (r : Rq.t) (w w' : World)
    (res : list Byte.byte * option error) :
  chromeImage env p r w = (res, w') →
  ∃ evs,
    trace w' = trace w ++ evs
    ∧ ∀ ctx tasks out,
        (ctx, tasks, out) ∈ runs evs →
        tasks = []
        ∨ ∃ u nav,
            tasks = browser.buildTasks (chromeImage_options env p r) u nav.
Proof.
  unfold chromeImage.
  destruct (url_Parse env (Rq.URL r)) as [u|e].
  - cbv [mbind M_bind].
    destruct (browser_exec.Image env (chromeImage_options env p r) u w)
      as [[image err] w1] eqn:HI.
    rewrite Image_two_attempts in HI.
    destruct (two_attempts_extends _ _ _ _ _ _ _ _ _ _ HI) as [evs Hevs].
    assert (Hw1 : w' = w1 → ∃ evs0,
      trace w' = trace w ++ evs0
      ∧ ∀ ctx tasks out,
          (ctx, tasks, out) ∈ runs evs0 →
          tasks = []
          ∨ ∃ u0 nav,
              tasks = browser.buildTasks (chromeImage_options env p r)
                        u0 nav).
    { intros ->. exists evs. split; [exact Hevs|].
      intros ctx tasks out Hin.
      rewrite <- (new_events_app w w1 evs Hevs) in Hin.
      destruct (two_attempts_run_tasks _ _ _ _ _ _ _ _ _ _ _ _ _ HI Hin)
        as [H|[H|H]]; [left; exact H|right..]; eauto. }
    destruct err; cbv [mret M_ret]; intros [= <- <-]; apply Hw1;
      reflexivity.
  - cbv [mret M_ret]. intros [= <- <-]. exists [].
    rewrite app_nil_r. split; [reflexivity|].
    intros ctx tasks out Hin. apply elem_of_nil in Hin. contradiction.
Qed.

(** The same runs are all the handler leaves in the trace. *)
Lemma HandleHttpRequest_run_tasks (p : Op.t) (hr : http_Request.t)
    (w w' : World) (err : option error)
    (ctx : Ctx) (tasks : Tasks) (out : RunOutcome) :
  HandleHttpRequest env p hr w = (err, w') →
  (ctx, tasks, out) ∈ runs (new_events w w') →
  tasks = []
  ∨ ∃ u nav,
      tasks = browser.buildTasks
                (chromeImage_options env p
                   (form_Decode env (http_Request.Form hr)).1) u nav.
Proof.
  unfold HandleHttpRequest.
  cbv [mbind M_bind mret M_ret counter_Inc http_Error emit
       ResponseWriter_Write get_trace].
  cbn [trace next_ctx deferred].
  destruct (http_Request.ParseForm_err hr) as [e|].
  { intros [= <- <-]. cbn [trace].
    erewrite new_events_app by (rewrite <- !app_assoc; reflexivity).
    intros Hin. apply elem_of_nil in Hin. contradiction. }
  destruct (form_Decode env (http_Request.Form hr)) as [request derr].
  cbn [fst].
  destruct derr as [e|].
  { intros [= <- <-]. cbn [trace].
    erewrite new_events_app by (rewrite <- !app_assoc; reflexivity).
    intros Hin. apply elem_of_nil in Hin. contradiction. }
  match goal with
  | |- context [chromeImage env p request ?w0] =>
    destruct (chromeImage env p request w0) as [[data cerr] w1] eqn:HC
  end.
  apply chromeImage_trace in HC as (evs & Htr & Hruns).
  cbn [trace] in Htr.
  assert (Hgoal : ∀ tail,
    runs tail = [] →
    (ctx, tasks, out)
      ∈ runs ([EvCounterInc "requests"
                 (strings_TrimLeft (http_Request.URL_Path hr) "/")]
              ++ evs ++ tail) →
    tasks = []
    ∨ ∃ u nav,
        tasks = browser.buildTasks (chromeImage_options env p request)
                  u nav).
  { intros tail Htail Hin.
    rewrite !runs_app, Htail, app_nil_r in Hin. cbn [runs app] in Hin.
    eauto. }
  destruct cerr as [e|];
    [|destruct (http_Write env (trace w1) data) as [e|]];
    intros [= <- <-]; cbn [trace]; rewrite Htr;
    (erewrite new_events_app by (rewrite <- !app_assoc; reflexivity));
    apply Hgoal; reflexivity.
Qed.
End ImageProcessorFacts.

(** * The public interface *)

Section PublicInterface.
Variable env : Env.
Import image_processor.

Lemma no_evaluate_without_script (c : ChromeBrowserOptions.t)
    (u : url_URL) (nav : bool) :
  ChromeBrowserOptions.JsCode c = "" →
  List.filter is_evaluate_step (browser.buildTasks c u nav) = [].
Proof.
  intros Hjs. rewrite browser_buildTasks_blocks, !List.filter_app, Hjs.
  destruct (header_block_steps (ChromeBrowserOptions.HeadersMap c))
    as (_ & _ & _ & ->).
  destruct (output_capture_is_capture (ChromeBrowserOptions.AsPDF c)
              (ChromeBrowserOptions.FullPage c)) as (_ & _ & _ & Hc).
  cbn [app List.filter capture_dom is_evaluate_step]. rewrite Hc.
  destruct nav; [|reflexivity].
  unfold navigation_block.
  destruct (decide (0 < ChromeBrowserOptions.Delay c)); reflexivity.
Qed.

(** C7: two requests whose decoded forms differ in their kind only are
    handled alike, whatever the two kinds are, and the error the handler
    returns is the one of [chromeImage] or, after it, of the write. *)
Theorem HandleHttpRequest_kind_irrelevant (p : Op.t)
    (hr1 hr2 : http_Request.t) (r : Rq.t) (kind : string) (w : World) :
  http_Request.URL_Path hr1 = http_Request.URL_Path hr2 →
  http_Request.ParseForm_err hr1 = None →
  http_Request.ParseForm_err hr2 = None →
  form_Decode env (http_Request.Form hr1) = (r, None) →
  form_Decode env (http_Request.Form hr2) = (with_Kind kind r, None) →
  HandleHttpRequest env p hr1 w = HandleHttpRequest env p hr2 w
  ∧ (HandleHttpRequest env p hr2 w).1
    = (match chromeImage env p r
               (counter_Inc "requests"
                  (strings_TrimLeft (http_Request.URL_Path hr2) "/") w).2
       with
       | (_, Some e, _) => Some e
       | (data, None, w1) => http_Write env (trace w1) data
       end).
Proof.
  intros Hpath Hp1 Hp2 Hd1 Hd2.
  assert (Hk : chromeImage env p (with_Kind kind r) = chromeImage env p r)
    by (apply chromeImage_ignores_Kind; reflexivity).
  unfold HandleHttpRequest.
  rewrite Hpath, Hp1, Hp2, Hd1, Hd2, Hk.
  split; [reflexivity|].
  cbv [mbind M_bind mret M_ret counter_Inc http_Error emit
       ResponseWriter_Write get_trace].
  cbn [trace next_ctx deferred snd].
  match goal with
  | |- context [chromeImage env p r ?w0] =>
    destruct (chromeImage env p r w0) as [[data cerr] w1]
  end.
  destruct cerr as [e|]; [reflexivity|].
  cbn [trace]. destruct (http_Write env (trace w1) data); reflexivity.
Qed.

(** C9: the options built for a request always ask for the full page,
    so no pipeline run on behalf of the handler holds the viewport
    screenshot, and when the request does not ask for a PDF the pipeline
    ends with the full-page screenshot. *)
Theorem public_interface_full_page_only (p : Op.t)
    (hr : http_Request.t) (w w' : World) (err : option error)
    (ctx : Ctx) (tasks : Tasks) (out : RunOutcome) :
  HandleHttpRequest env p hr w = (err, w') →
  (ctx, tasks, out) ∈ runs (new_events w w') →
  tasks ≠ [] →
  (∀ r, ChromeBrowserOptions.FullPage (chromeImage_options env p r)
        = true)
  ∧ (chromedp_CaptureScreenshot ∉ tasks)
  ∧ (Rq.AsPDF (form_Decode env (http_Request.Form hr)).1 = false →
     last tasks = Some (chromedp_FullScreenshot 100)).
Proof.
  intros Hrun Hin Hne. split; [reflexivity|].
  destruct (HandleHttpRequest_run_tasks env p hr w w' err ctx tasks out
              Hrun Hin) as [H|(u & nav & ->)]; [contradiction|].
  match goal with
  | |- context [browser.buildTasks ?c u nav] =>
    destruct (browser_buildTasks_ends c u nav) as [Hlast Hcap]
  end.
  rewrite chromeImage_options_FullPage, chromeImage_options_AsPDF in *.
  split.
  - intros Hvp. apply list_elem_of_In in Hvp.
    assert (Hf : List.In chromedp_CaptureScreenshot
                   (List.filter is_capture_step
                      (browser.buildTasks
                         (chromeImage_options env p
                            (form_Decode env (http_Request.Form hr)).1)
                         u nav)))
      by (apply List.filter_In; split; [exact Hvp|reflexivity]).
    rewrite Hcap in Hf.
    destruct (Rq.AsPDF (form_Decode env (http_Request.Form hr)).1);
      destruct Hf as [Hf|[]]; discriminate.
  - intros Hpdf. rewrite Hpdf in Hlast. exact Hlast.
Qed.

(** C10: the options built for a request never carry a script, so no
    pipeline run on behalf of the handler holds an Evaluate step. *)
Theorem public_interface_never_evaluates (p : Op.t)
    (hr : http_Request.t) (w w' : World) (err : option error)
    (ctx : Ctx) (tasks : Tasks) (out : RunOutcome) :
  HandleHttpRequest env p hr w = (err, w') →
  (ctx, tasks, out) ∈ runs (new_events w w') →
  (∀ r, ChromeBrowserOptions.JsCode (chromeImage_options env p r) = "")
  ∧ List.filter is_evaluate_step tasks = [].
Proof.
  intros Hrun Hin. split; [reflexivity|].
  destruct (HandleHttpRequest_run_tasks env p hr w w' err ctx tasks out
              Hrun Hin) as [->|(u & nav & ->)]; [reflexivity|].
  apply no_evaluate_without_script. reflexivity.
Qed.
End PublicInterface.

(** C6 (the code departs from the claim): with asPDF configured as the
    default and a request that names only its URL, the options built carry
    the configured width, height, timeout, delay and user agent, yet asPDF
    stays unset and the pipeline ends with the full-page screenshot
    instead of the PDF capture. *)
Theorem chromeImage_drops_configured_AsPDF :
  let options :=
    image_processor.chromeImage_options sample.slow_page
      sample.configured_pdf sample.bare_request in
  ImageProcessorOptions.AsPDF sample.configured_pdf = true
  ∧ ImageProcessorRequest.AsPDF sample.bare_request = false
  ∧ ChromeBrowserOptions.AsPDF options = false
  ∧ last (browser.buildTasks options sample.url true)
    = Some (chromedp_FullScreenshot 100)
  ∧ (ChromeBrowserOptions.Width options,
     ChromeBrowserOptions.Height options,
     ChromeBrowserOptions.Timeout options,
     ChromeBrowserOptions.Delay options,
     ChromeBrowserOptions.UserAgent options)
    = (1920, 1280, 10, 3, "webrender").
Proof. cbv zeta. repeat split. Qed.

(** * The theorems at work on the samples *)

Example scripted_primary_pipeline :
  browser.buildTasks sample.scripted sample.url true
  = [network_Enable;
     network_SetExtraHTTPHeaders {["Authorization" := AnyString "Bearer t"]};
     chromedp_Navigate "https://slow.example";
     chromedp_Evaluate "window.scrollTo(0, 0)";
     chromedp_Sleep 3000000000;
     chromedp_Stop;
     chromedp_OuterHTML ":root" ByQueryAll;
     page_PrintToPDF true].
Proof. reflexivity. Qed.

Example scripted_fallback_pipeline :
  browser.buildTasks sample.scripted sample.url false
  = [network_Enable;
     network_SetExtraHTTPHeaders {["Authorization" := AnyString "Bearer t"]};
     chromedp_OuterHTML ":root" ByQueryAll;
     page_PrintToPDF true].
Proof. reflexivity. Qed.

Example plain_fallback_pipeline :
  browser.buildTasks sample.options sample.url false
  = [chromedp_OuterHTML ":root" ByQueryAll; chromedp_FullScreenshot 100].
Proof. reflexivity. Qed.

Lemma buildTasks_output_capture_precedence_witness :
  ChromeBrowserOptions.AsPDF sample.scripted = true
  ∧ ChromeBrowserOptions.FullPage sample.scripted = true
  ∧ last (browser.buildTasks sample.scripted sample.url true)
    = Some (page_PrintToPDF true)
  ∧ List.filter is_capture_step
      (browser.buildTasks sample.scripted sample.url true)
    = [page_PrintToPDF true].
Proof.
  split; [reflexivity|]. split; [reflexivity|].
  exact (proj1 (buildTasks_output_capture_precedence sample.scripted
                  sample.processor_options sample.url true)).
Defined.

Lemma buildTasks_navigation_block_witness :
  navigation_rule "https://slow.example" "window.scrollTo(0, 0)" 3 true
    (browser.buildTasks sample.scripted sample.url true)
  ∧ navigation_rule "https://slow.example" "" 0 false
      (chrome_processor.buildTasks sample.processor_options sample.url
         false).
Proof.
  split.
  - exact (proj1 (buildTasks_navigation_block sample.scripted
                    sample.processor_options sample.url true)).
  - exact (proj2 (buildTasks_navigation_block sample.scripted
                    sample.processor_options sample.url false)).
Defined.

Lemma buildTasks_header_interception_witness :
  ChromeBrowserOptions.HeadersMap sample.scripted ≠ ∅
  ∧ ChromeProcessorOptions.HeadersMap sample.processor_options = ∅
  ∧ (∃ rest,
       browser.buildTasks sample.scripted sample.url true
       = network_Enable
         :: network_SetExtraHTTPHeaders
              (ChromeBrowserOptions.HeadersMap sample.scripted)
         :: rest
       ∧ List.filter is_header_step rest = [])
  ∧ List.filter is_header_step
      (chrome_processor.buildTasks sample.processor_options sample.url
         true) = [].
Proof.
  assert (Hne : ChromeBrowserOptions.HeadersMap sample.scripted ≠ ∅)
    by (intros H; discriminate H).
  destruct (buildTasks_header_interception sample.scripted
              sample.processor_options sample.url true)
    as [[Hset _] [_ Hnone]].
  split; [exact Hne|]. split; [reflexivity|].
  split; [exact (Hset Hne)|exact (Hnone eq_refl)].
Defined.

Lemma buildTasks_duplicates_agree_witness :
  ChromeProcessorOptions.Timeout sample.processor_options
  ≠ ChromeBrowserOptions.Timeout sample.options
  ∧ chrome_processor.buildTasks sample.processor_options sample.url true
    = browser.buildTasks sample.options sample.url true.
Proof.
  split; [discriminate|].
  apply (buildTasks_duplicates_agree sample.processor_options
           sample.options sample.url true); reflexivity.
Defined.

Lemma Image_deadline_runs_one_fallback_witness :
  let run :=
    browser_exec.Image sample.slow_page sample.options sample.url
      sample.world0 in
  let out1 := sample.nothing (Some context_DeadlineExceeded) in
  (3%nat, browser.buildTasks sample.options sample.url true, out1)
    ∈ runs (new_events sample.world0 run.2)
  ∧ errors_Is (run_err out1) context_DeadlineExceeded = true
  ∧ ∃ ctx0 out0 parent ctx2 out2,
      runs (new_events sample.world0 run.2)
      = [(ctx0, [], out0);
         (3%nat, browser.buildTasks sample.options sample.url true, out1);
         (ctx2, browser.buildTasks sample.options sample.url false, out2)]
      ∧ timeouts (new_events sample.world0 run.2)
        = [(parent,
            time.mul (ChromeBrowserOptions.Timeout sample.options)
              time.Second, 3%nat);
           (parent,
            time.mul (ChromeBrowserOptions.Timeout sample.options)
              time.Second, ctx2)]
      ∧ 3%nat ≠ ctx2
      ∧ run.1 = match run_err out2 with
                | Some e => (None, Some e)
                | None =>
                  (Some (store
                           (store {| ChromeBrowserImage.Data := [];
                                     ChromeBrowserImage.DOM := "" |} out1)
                           out2), None)
                end.
Proof.
  cbv zeta.
  assert (Hin :
    (3%nat, browser.buildTasks sample.options sample.url true,
     sample.nothing (Some context_DeadlineExceeded))
      ∈ runs (new_events sample.world0
                (browser_exec.Image sample.slow_page sample.options
                   sample.url sample.world0).2)).
  { apply list_elem_of_In. vm_compute. right; left; reflexivity. }
  split; [exact Hin|]. split; [reflexivity|].
  apply (Image_deadline_runs_one_fallback sample.slow_page sample.options
           sample.url sample.world0); [apply surjective_pairing|exact Hin|].
  reflexivity.
Defined.

Lemma Image_other_errors_propagate_witness :
  let run :=
    browser_exec.Image sample.unknown_host sample.options sample.url
      sample.world0 in
  let e := errors_New "net::ERR_NAME_NOT_RESOLVED" in
  let out1 := sample.nothing (Some e) in
  (3%nat, browser.buildTasks sample.options sample.url true, out1)
    ∈ runs (new_events sample.world0 run.2)
  ∧ errors_Is (Some e) context_DeadlineExceeded = false
  ∧ run.1 = (None, Some e)
  ∧ (∃ ctx0 out0,
       runs (new_events sample.world0 run.2)
       = [(ctx0, [], out0);
          (3%nat, browser.buildTasks sample.options sample.url true,
           out1)]).
Proof.
  cbv zeta.
  assert (Hin :
    (3%nat, browser.buildTasks sample.options sample.url true,
     sample.nothing (Some (errors_New "net::ERR_NAME_NOT_RESOLVED")))
      ∈ runs (new_events sample.world0
                (browser_exec.Image sample.unknown_host sample.options
                   sample.url sample.world0).2)).
  { apply list_elem_of_In. vm_compute. right; left; reflexivity. }
  split; [exact Hin|]. split; [reflexivity|].
  destruct (Image_other_errors_propagate sample.unknown_host sample.options
              sample.url sample.world0 _ _
              (surjective_pairing _)) as [Hprop _].
  destruct (Hprop _ _ _ Hin eq_refl eq_refl) as (Hres & Hruns & _).
  split; assumption.
Defined.

Lemma HandleHttpRequest_kind_irrelevant_witness :
  let plain := sample.http_request [] in
  let odd := sample.http_request ["firefox"] in
  ImageProcessorRequest.Kind
    (form_Decode sample.slow_page (http_Request.Form odd)).1 = "firefox"
  ∧ image_processor.HandleHttpRequest sample.slow_page
      sample.configured_pdf plain sample.world0
    = image_processor.HandleHttpRequest sample.slow_page
        sample.configured_pdf odd sample.world0.
Proof.
  cbv zeta. split; [reflexivity|].
  apply (HandleHttpRequest_kind_irrelevant sample.slow_page
           sample.configured_pdf (sample.http_request [])
           (sample.http_request ["firefox"])
           (form_Decode sample.slow_page
              (http_Request.Form (sample.http_request []))).1
           "firefox" sample.world0); reflexivity.
Defined.

Lemma public_interface_full_page_only_witness :
  let run :=
    image_processor.HandleHttpRequest sample.slow_page
      sample.configured_pdf (sample.http_request ["firefox"])
      sample.world0 in
  let tasks :=
    [chromedp_OuterHTML ":root" ByQueryAll; chromedp_FullScreenshot 100] in
  (4%nat, tasks, sample.captured) ∈ runs (new_events sample.world0 run.2)
  ∧ (chromedp_CaptureScreenshot ∉ tasks)
  ∧ last tasks = Some (chromedp_FullScreenshot 100).
Proof.
  cbv zeta.
  assert (Hin :
    (4%nat,
     [chromedp_OuterHTML ":root" ByQueryAll; chromedp_FullScreenshot 100],
     sample.captured)
      ∈ runs (new_events sample.world0
                (image_processor.HandleHttpRequest sample.slow_page
                   sample.configured_pdf (sample.http_request ["firefox"])
                   sample.world0).2)).
  { apply list_elem_of_In. vm_compute. right; right; left; reflexivity. }
  split; [exact Hin|].
  destruct (public_interface_full_page_only sample.slow_page
              sample.configured_pdf (sample.http_request ["firefox"])
              sample.world0 _ _ _ _ _ (surjective_pairing _) Hin)
    as (_ & Hvp & Hlast); [discriminate|].
  split; [exact Hvp|]. apply Hlast. reflexivity.
Defined.

Lemma public_interface_never_evaluates_witness :
  let run :=
    image_processor.HandleHttpRequest sample.slow_page
      sample.configured_pdf (sample.http_request ["firefox"])
      sample.world0 in
  let tasks :=
    [chromedp_Navigate "https://slow.example"; chromedp_Sleep 3000000000;
     chromedp_Stop; chromedp_OuterHTML ":root" ByQueryAll;
     chromedp_FullScreenshot 100] in
  (3%nat, tasks, sample.nothing (Some context_DeadlineExceeded))
    ∈ runs (new_events sample.world0 run.2)
  ∧ List.filter is_evaluate_step tasks = [].
Proof.
  cbv zeta.
  assert (Hin :
    (3%nat,
     [chromedp_Navigate "https://slow.example"; chromedp_Sleep 3000000000;
      chromedp_Stop; chromedp_OuterHTML ":root" ByQueryAll;
      chromedp_FullScreenshot 100],
     sample.nothing (Some context_DeadlineExceeded))
      ∈ runs (new_events sample.world0
                (image_processor.HandleHttpRequest sample.slow_page
                   sample.configured_pdf (sample.http_request ["firefox"])
                   sample.world0).2)).
  { apply list_elem_of_In. vm_compute. right; left; reflexivity. }
  split; [exact Hin|].
  apply (public_interface_never_evaluates sample.slow_page
           sample.configured_pdf (sample.http_request ["firefox"])
           sample.world0 _ _ _ _ _ (surjective_pairing _) Hin).
Defined.

(** * Further properties of the capture executor *)

Lemma created_app (xs ys : list Event) :
  created (xs ++ ys) = created xs ++ created ys.
Proof.
  induction xs as [|x xs IH]; [reflexivity|].
  destruct x; cbn [app created]; rewrite IH; reflexivity.
Qed.

Lemma cancelled_app (xs ys : list Event) :
  cancelled (xs ++ ys) = cancelled xs ++ cancelled ys.
Proof.
  induction xs as [|x xs IH]; [reflexivity|].
  destruct x; cbn [app cancelled]; rewrite IH; reflexivity.
Qed.

Lemma launches_app (xs ys : list Event) :
  launches (xs ++ ys) = launches xs ++ launches ys.
Proof.
  induction xs as [|x xs IH]; [reflexivity|].
  destruct x; cbn [app launches]; rewrite IH; reflexivity.
Qed.

Lemma counters_app (xs ys : list Event) :
  counters (xs ++ ys) = counters xs ++ counters ys.
Proof.
  induction xs as [|x xs IH]; [reflexivity|].
  destruct x; cbn [app counters]; rewrite IH; reflexivity.
Qed.

Lemma http_errors_app (xs ys : list Event) :
  http_errors (xs ++ ys) = http_errors xs ++ http_errors ys.
Proof.
  induction xs as [|x xs IH]; [reflexivity|].
  destruct x; cbn [app http_errors]; rewrite IH; reflexivity.
Qed.

Lemma writes_app (xs ys : list Event) :
  writes (xs ++ ys) = writes xs ++ writes ys.
Proof.
  induction xs as [|x xs IH]; [reflexivity|].
  destruct x; cbn [app writes]; rewrite IH; reflexivity.
Qed.

Section TwoAttemptsTrace.
Import chromedp.
Context {R : Type}.
Variables (env : Env) (opts : list ExecAllocatorOption) (d : Z)
          (primary fallback : Tasks) (st : R → RunOutcome → R) (r0 : R).
Variable w : World.

Local Abbreviation a := (next_ctx w).
Local Abbreviation b := (S (next_ctx w)).
Local Abbreviation t := (S (S (next_ctx w))).
Local Abbreviation n := (S (S (S (next_ctx w)))).
Local Abbreviation o_launch := (out_launch env opts d w).
Local Abbreviation o_primary := (out_primary env opts d primary w).
Local Abbreviation o_fallback :=
  (out_fallback env opts d primary fallback w).
Local Abbreviation e_launch := (ev_launch env opts d w).
Local Abbreviation e_primary := (ev_primary env opts d primary w).
Local Abbreviation e_fallback :=
  (ev_fallback env opts d primary fallback w).
Local Abbreviation run := (two_attempts env opts d primary fallback st r0).

(** The five traces a run can leave, with the result of each. *)
Lemma two_attempts_trace (res : option R * option error) (w' : World) :
  run w = (res, w') →
  (∃ e, run_err o_launch = Some e ∧ res = (None, Some e)
        ∧ new_events w w' = e_launch ++ map EvCancel [t; b; a])
  ∨ (run_err o_launch = None
     ∧ errors_Is (run_err o_primary) context_DeadlineExceeded = false
     ∧ ∃ e, run_err o_primary = Some e ∧ res = (None, Some e)
            ∧ new_events w w' = e_primary ++ map EvCancel [t; b; a])
  ∨ (run_err o_launch = None
     ∧ run_err o_primary = None
     ∧ res = (Some (st r0 o_primary), None)
     ∧ new_events w w' = e_primary ++ map EvCancel [t; t; b; a])
  ∨ (run_err o_launch = None
     ∧ errors_Is (run_err o_primary) context_DeadlineExceeded = true
     ∧ ∃ e, run_err o_fallback = Some e ∧ res = (None, Some e)
            ∧ new_events w w' = e_fallback ++ map EvCancel [n; t; b; a])
  ∨ (run_err o_launch = None
     ∧ errors_Is (run_err o_primary) context_DeadlineExceeded = true
     ∧ run_err o_fallback = None
     ∧ res = (Some (st (st r0 o_primary) o_fallback), None)
     ∧ new_events w w' = e_fallback ++ map EvCancel [t; n; t; b; a]).
Proof.
  rewrite two_attempts_cases.
  destruct (run_err o_launch) as [e0|] eqn:E0.
  { intros [= <- <-]. left. exists e0.
    erewrite new_events_app by reflexivity. auto. }
  destruct (errors_Is (run_err o_primary) context_DeadlineExceeded) eqn:E1.
  - destruct (run_err o_fallback) as [e2|] eqn:E2; intros [= <- <-];
      erewrite new_events_app by reflexivity.
    + do 3 right. left. eauto 10.
    + do 4 right. auto.
  - destruct (run_err o_primary) as [e1|] eqn:E2; intros [= <- <-];
      erewrite new_events_app by reflexivity.
    + right; left. eauto 10.
    + do 2 right; left. auto.
Qed.

Ltac by_trace Hrun :=
  destruct (two_attempts_trace _ _ Hrun)
    as [(err0 & H0 & Hres & Hev)
       |[(H0 & H1 & err0 & H2 & Hres & Hev)
        |[(H0 & H2 & Hres & Hev)
         |[(H0 & H1 & err0 & H2 & Hres & Hev)
          |(H0 & H1 & H2 & Hres & Hev)]]]];
  rewrite Hev;
  unfold ev_fallback, ev_reopen, ev_primary, ev_listen, ev_launch, ev_open.

(** A failed launch: its error is returned, nothing else was run and no
    listener was registered. *)
Lemma two_attempts_launch_failure (res : option R * option error)
    (w' : World) (ctx0 : Ctx) (out0 : RunOutcome) (e : error) :
  run w = (res, w') →
  head (runs (new_events w w')) = Some (ctx0, [], out0) →
  run_err out0 = Some e →
  res = (None, Some e)
  ∧ runs (new_events w w') = [(ctx0, [], out0)]
  ∧ listeners (new_events w w') = [].
Proof.
  intros Hrun. by_trace Hrun; cbn; intros [= <- <-] He;
    try congruence.
  rewrite H0 in He. injection He as <-. auto.
Qed.



(** One browser is launched, with the options given. *)
Lemma two_attempts_launches (res : option R * option error) (w' : World) :
  run w = (res, w') → launches (new_events w w') = [opts].
Proof.
  intros Hrun. by_trace Hrun; reflexivity.
Qed.

(** No pipeline runs on a scope without its crash listener, and the
    other listeners are on the scope of the primary run only. *)
Lemma two_attempts_guarded (res : option R * option error) (w' : World) :
  run w = (res, w') →
  crash_guarded [] (new_events w w') = true
  ∧ ∀ ctx l,
      (ctx, l) ∈ listeners (new_events w w') →
      l = OnTargetCrashed_cancel ctx
      ∨ ∃ out, (ctx, primary, out) ∈ runs (new_events w w').
Proof.
  intros Hrun.
  assert (Hin : ∀ ctx l,
    (ctx, l) ∈ [(b, OnTargetCrashed_cancel b);
                (t, OnTargetCrashed_cancel t);
                (t, OnJavascriptDialogOpening_accept t);
                (t, OnRuntimeEvent_log); (t, OnNetworkEvent_log);
                (n, OnTargetCrashed_cancel n)] →
    l = OnTargetCrashed_cancel ctx ∨ ctx = t).
  { intros ctx l H.
    repeat (apply elem_of_cons in H as [H|H]);
      try (apply elem_of_nil in H; contradiction);
      injection H as -> ->; auto. }
  split.
  - by_trace Hrun; cbn; rewrite ?Nat.eqb_refl; cbn;
      destruct primary as [|p0 ps]; cbn; rewrite ?Nat.eqb_refl; cbn;
      try reflexivity;
      destruct fallback as [|f0 fs]; cbn;
      rewrite ?Nat.eqb_refl, ?orb_true_r; reflexivity.
  - intros ctx lis.
    by_trace Hrun; cbn; intros Hl;
      try (apply elem_of_nil in Hl; contradiction);
      (destruct (Hin ctx lis) as [?| ->];
       [repeat (apply elem_of_cons in Hl as [Hl|Hl]);
        try (apply elem_of_nil in Hl; contradiction);
        rewrite Hl; repeat constructor
       |left; assumption
       |right; eexists; apply elem_of_cons; right;
        apply elem_of_cons; left; reflexivity]).
Qed.
End TwoAttemptsTrace.


Lemma allocator_options_shape (ua : string) (width height : Z)
    (path proxy : string) :
  allocator_options ua width height path proxy
  = [chromedp.DefaultExecAllocatorOptions; chromedp.UserAgent ua;
     chromedp.DisableGPU; chromedp.Flag "ignore-certificate-errors" true;
     chromedp.WindowSize width height]
    ++ (if decide (path = "") then [] else [chromedp.ExecPath path])
    ++ (if decide (proxy = "") then [] else [chromedp.ProxyServer proxy]).
Proof.
  unfold allocator_options.
  destruct (String.eqb_spec path ""), (String.eqb_spec proxy "");
    repeat case_decide; first [reflexivity | contradiction].
Qed.

(** X1: when the browser cannot be launched (the first, empty run returns
    an error), [Image] returns nil and that error, runs no pipeline and
    registers no listener. *)
Theorem Image_launch_failure (env : Env) (c : ChromeBrowserOptions.t)
    (url : url_URL) (w w' : World)
    (res : option ChromeBrowserImage.t * option error)
    (ctx0 : Ctx) (out0 : RunOutcome) (e : error) :
  browser_exec.Image env c url w = (res, w') →
  head (runs (new_events w w')) = Some (ctx0, [], out0) →
  run_err out0 = Some e →
  res = (None, Some e)
  ∧ runs (new_events w w') = [(ctx0, [], out0)]
  ∧ listeners (new_events w w') = [].
Proof.
  rewrite Image_two_attempts. apply two_attempts_launch_failure.
Qed.


(** X3: when the primary run of [Image] returns no error, the image holds
    what that run stored, no error is returned, and there is no second
    run. *)
Theorem Image_primary_success (env : Env) (c : ChromeBrowserOptions.t)
    (url : url_URL) (w w' : World)
    (res : option ChromeBrowserImage.t * option error)
    (ctx1 : Ctx) (out1 : RunOutcome) :
  browser_exec.Image env c url w = (res, w') →
  (ctx1, browser.buildTasks c url true, out1) ∈ runs (new_events w w') →
  run_err out1 = None →
  res = (Some (store {| ChromeBrowserImage.Data := [];
                        ChromeBrowserImage.DOM := "" |} out1), None)
  ∧ ∃ ctx0 out0,
      runs (new_events w w')
      = [(ctx0, [], out0); (ctx1, browser.buildTasks c url true, out1)].
Proof.
  rewrite Image_two_attempts. intros Hrun Hin He.
  destruct (two_attempts_no_deadline _ _ _ _ _ _ _ _ _ _ _ _
              (browser_buildTasks_nonempty c url true)
              (browser_buildTasks_fallback_differs c url)
              Hrun Hin) as (ctx0 & out0 & parent & Hruns & Hto & Hres).
  { rewrite He. reflexivity. }
  rewrite He in Hres. eauto.
Qed.


(** X6: a call of [Image] launches exactly one browser: with the default
    options, the user agent, the GPU disabled, certificate errors ignored
    and the window size, then the binary path if one is set, then the
    proxy if one is set. *)
Theorem Image_single_launch_options (env : Env)
    (c : ChromeBrowserOptions.t) (url : url_URL) (w w' : World)
    (res : option ChromeBrowserImage.t * option error) :
  browser_exec.Image env c url w = (res, w') →
  launches (new_events w w')
  = [[chromedp.DefaultExecAllocatorOptions;
      chromedp.UserAgent (ChromeBrowserOptions.UserAgent c);
      chromedp.DisableGPU;
      chromedp.Flag "ignore-certificate-errors" true;
      chromedp.WindowSize (ChromeBrowserOptions.Width c)
        (ChromeBrowserOptions.Height c)]
     ++ (if decide (ChromeBrowserOptions.Path c = "") then []
         else [chromedp.ExecPath (ChromeBrowserOptions.Path c)])
     ++ (if decide (ChromeBrowserOptions.Proxy c = "") then []
         else [chromedp.ProxyServer (ChromeBrowserOptions.Proxy c)])].
Proof.
  rewrite Image_two_attempts. intros Hrun.
  rewrite (two_attempts_launches _ _ _ _ _ _ _ _ _ _ Hrun).
  rewrite allocator_options_shape. reflexivity.
Qed.

(** X7: in a trace of [Image] every pipeline runs on a scope whose crash
    listener (cancelling that very scope) was registered before; the
    dialog, console and network listeners are registered on the scope of
    the primary run only. *)
Theorem Image_crash_guarded (env : Env) (c : ChromeBrowserOptions.t)
    (url : url_URL) (w w' : World)
    (res : option ChromeBrowserImage.t * option error) :
  browser_exec.Image env c url w = (res, w') →
  crash_guarded [] (new_events w w') = true
  ∧ ∀ ctx l,
      (ctx, l) ∈ listeners (new_events w w') →
      l = chromedp.OnTargetCrashed_cancel ctx
      ∨ ∃ out,
          (ctx, browser.buildTasks c url true, out)
            ∈ runs (new_events w w').
Proof.
  rewrite Image_two_attempts. apply two_attempts_guarded.
Qed.


(** * Further properties of the image processor *)

Section ImageProcessorTrace.
Variable env : Env.
Import image_processor.

(** The events of [Image] are chromedp's only. *)
Lemma Image_browser_events_only (c : ChromeBrowserOptions.t)
    (u : url_URL) (w w' : World)
    (res : option ChromeBrowserImage.t * option error) :
  browser_exec.Image env c u w = (res, w') →
  counters (new_events w w') = []
  ∧ http_errors (new_events w w') = []
  ∧ writes (new_events w w') = [].
Proof.
  rewrite Image_two_attempts. intros Hrun.
  destruct (two_attempts_trace _ _ _ _ _ _ _ _ _ _ Hrun)
    as [(e & _ & _ & Hev)
       |[(_ & _ & e & _ & _ & Hev)
        |[(_ & _ & _ & Hev)
         |[(_ & _ & e & _ & _ & Hev)
          |(_ & _ & _ & _ & Hev)]]]];
    rewrite Hev; repeat split.
Qed.

(** The two ways [chromeImage] returns. *)
Lemma chromeImage_cases (p : Op.t) (r : Rq.t) (w w1 : World)
    (data : list Byte.byte) (cerr : option error) :
  chromeImage env p r w = (data, cerr, w1) →
  (∃ e, url_Parse env (Rq.URL r) = inr e
        ∧ cerr = Some e ∧ data = [] ∧ w1 = w)
  ∨ (∃ u image,
       url_Parse env (Rq.URL r) = inl u
       ∧ browser_exec.Image env (chromeImage_options env p r) u w
         = (image, cerr, w1)
       ∧ data = match cerr, image with
                | None, Some image => ChromeBrowserImage.Data image
                | _, _ => []
                end).
Proof.
  unfold chromeImage.
  destruct (url_Parse env (Rq.URL r)) as [u|e] eqn:Hu.
  - cbv [mbind M_bind].
    destruct (browser_exec.Image env (chromeImage_options env p r) u w)
      as [[image err] w2] eqn:HI.
    destruct err; cbv [mret M_ret]; intros [= <- <- <-]; right;
      exists u, image; (split; [reflexivity|]); split;
      first [exact HI | reflexivity].
  - cbv [mret M_ret]. intros [= <- <- <-]. left. eauto.
Qed.

(** The four ways [HandleHttpRequest] returns, with the events of each. *)
Lemma HandleHttpRequest_cases (p : Op.t) (hr : http_Request.t)
    (w w' : World) (err : option error) :
  HandleHttpRequest env p hr w = (err, w') →
  let channel := strings_TrimLeft (http_Request.URL_Path hr) "/" in
  let inc := EvCounterInc "requests" channel in
  let fail := λ msg e,
    [EvCounterInc "errors" channel;
     EvHttpError (String.append msg (error_Error e))
       http_StatusInternalServerError] in
  let w0 := (counter_Inc "requests" channel w).2 in
  let decoded := form_Decode env (http_Request.Form hr) in
  (∃ e, http_Request.ParseForm_err hr = Some e ∧ err = Some e
        ∧ new_events w w' = inc :: fail "could not parse form: " e)
  ∨ (http_Request.ParseForm_err hr = None
     ∧ ∃ e, decoded.2 = Some e ∧ err = Some e
            ∧ new_events w w' = inc :: fail "could not decode form: " e)
  ∨ (http_Request.ParseForm_err hr = None ∧ decoded.2 = None
     ∧ ∃ data cerr w1 evs,
         chromeImage env p decoded.1 w0 = (data, cerr, w1)
         ∧ new_events w0 w1 = evs
         ∧ ((∃ e, cerr = Some e ∧ err = Some e
                  ∧ new_events w w'
                    = inc :: evs ++ fail "could not make image: " e)
            ∨ (cerr = None
               ∧ err = http_Write env (trace w1) data
               ∧ new_events w w'
                 = inc :: evs
                   ++ EvWrite data err
                      :: match err with
                         | Some e => fail "could not write response: " e
                         | None => []
                         end))).
Proof.
  unfold HandleHttpRequest.
  cbv [mbind M_bind mret M_ret counter_Inc http_Error emit
       ResponseWriter_Write get_trace].
  cbn [trace next_ctx deferred snd].
  destruct (http_Request.ParseForm_err hr) as [e|].
  { intros [= <- <-]. left. exists e. cbn [trace].
    erewrite new_events_app by (rewrite <- !app_assoc; reflexivity).
    auto. }
  destruct (form_Decode env (http_Request.Form hr)) as [request derr].
  cbn [fst snd]. destruct derr as [e|].
  { intros [= <- <-]. right; left. split; [reflexivity|]. exists e.
    cbn [trace].
    erewrite new_events_app by (rewrite <- !app_assoc; reflexivity).
    auto. }
  match goal with
  | |- context [chromeImage env p request ?w0] =>
    destruct (chromeImage env p request w0) as [[data cerr] w1] eqn:HC
  end.
  destruct (chromeImage_trace env _ _ _ _ _ HC) as (evs & Htr & _).
  cbn [trace] in Htr.
  assert (Hevs : new_events
                   {| trace := trace w
                        ++ [EvCounterInc "requests"
                              (strings_TrimLeft
                                 (http_Request.URL_Path hr) "/")];
                      next_ctx := next_ctx w; deferred := deferred w |}
                   w1 = evs)
    by (apply new_events_app; exact Htr).
  intros Hret. do 2 right. split; [reflexivity|]. split; [reflexivity|].
  exists data, cerr, w1, evs. split; [reflexivity|]. split; [exact Hevs|].
  destruct cerr as [e|].
  - left. exists e. injection Hret as <- <-. cbn [trace]. rewrite Htr.
    erewrite new_events_app by (rewrite <- !app_assoc; reflexivity).
    auto.
  - right. split; [reflexivity|].
    destruct (http_Write env (trace w1) data) as [e|];
      injection Hret as <- <-; cbn [trace]; rewrite Htr;
      (erewrite new_events_app by (rewrite <- !app_assoc; reflexivity));
      auto.
Qed.

(** What [chromeImage] leaves in the trace is what [Image] left. *)
Lemma chromeImage_events (p : Op.t) (r : Rq.t) (w w1 : World)
    (data : list Byte.byte) (cerr : option error) :
  chromeImage env p r w = (data, cerr, w1) →
  counters (new_events w w1) = []
  ∧ http_errors (new_events w w1) = []
  ∧ writes (new_events w w1) = []
  ∧ (length (launches (new_events w w1)) ≤ 1)%nat
  ∧ (launches (new_events w w1) = [] ↔
     ∃ e, url_Parse env (Rq.URL r) = inr e)
  ∧ (launches (new_events w w1) = [] →
     created (new_events w w1) = [] ∧ runs (new_events w w1) = []).
Proof.
  intros HC.
  destruct (chromeImage_cases _ _ _ _ _ _ HC)
    as [(e & Hu & _ & _ & ->)|(u & image & Hu & HI & _)].
  - unfold new_events. rewrite drop_all. cbn.
    repeat split; eauto; lia.
  - destruct (Image_browser_events_only _ _ _ _ _ HI) as (-> & -> & ->).
    rewrite Image_two_attempts in HI.
    rewrite (two_attempts_launches _ _ _ _ _ _ _ _ _ _ HI). cbn.
    repeat split; try discriminate; try lia.
    intros (e & He). congruence.
Qed.
End ImageProcessorTrace.

(** A returned result is what the pipeline runs stored, one after the
    other, into the empty result. *)
Lemma two_attempts_result_fold {R : Type} (env : Env)
    (opts : list chromedp.ExecAllocatorOption) (d : Z)
    (primary fallback : Tasks) (st : R → RunOutcome → R) (r0 : R)
    (w w' : World) (res : option R * option error) (r : R) :
  two_attempts env opts d primary fallback st r0 w = (res, w') →
  res.1 = Some r →
  r = foldl st r0 (map snd (drop 1 (runs (new_events w w')))).
Proof.
  intros Hrun.
  destruct (two_attempts_trace _ _ _ _ _ _ _ _ _ _ Hrun)
    as [(e & _ & -> & Hev)
       |[(_ & _ & e & _ & -> & Hev)
        |[(_ & _ & -> & Hev)
         |[(_ & _ & e & _ & -> & Hev)
          |(_ & _ & _ & -> & Hev)]]]];
    rewrite Hev; cbn [fst]; intros [= <-]; reflexivity.
Qed.

Section ImageProcessorMore.
Variable env : Env.
Import image_processor.

Lemma runs_of_handler (inc : Event) (evs tail : list Event) :
  runs [inc] = [] → runs tail = [] →
  runs (inc :: evs ++ tail) = runs evs.
Proof.
  intros Hi Ht. change (inc :: evs ++ tail) with ([inc] ++ evs ++ tail).
  rewrite !runs_app, Hi, Ht, app_nil_r. reflexivity.
Qed.

(** X10: every request increments the requests counter once, first of
    all; it increments the errors counter and calls [http.Error], once
    each and with status 500 and the error's text, exactly when an error
    is returned; and it writes a response body at most once. *)
Theorem HandleHttpRequest_accounting (p : Op.t) (hr : http_Request.t)
    (w w' : World) (err : option error) :
  HandleHttpRequest env p hr w = (err, w') →
  let channel := strings_TrimLeft (http_Request.URL_Path hr) "/" in
  head (new_events w w') = Some (EvCounterInc "requests" channel)
  ∧ counters (new_events w w')
    = ("requests", channel)
      :: match err with
         | Some _ => [("errors", channel)]
         | None => []
         end
  ∧ match err with
    | Some e =>
      ∃ msg, http_errors (new_events w w')
             = [(String.append msg (error_Error e), 500)]
    | None => http_errors (new_events w w') = []
    end
  ∧ (length (writes (new_events w w')) ≤ 1)%nat.
Proof.
  intros Hrun.
  destruct (HandleHttpRequest_cases env p hr w w' err Hrun)
    as [(e & _ & -> & Hev)
       |[(_ & e & _ & -> & Hev)
        |(_ & _ & data & cerr & w1 & evs & HC & Hevs & Hcase)]];
    cbv zeta in *.
  - rewrite Hev. cbn. repeat split; eauto.
  - rewrite Hev. cbn. repeat split; eauto.
  - destruct (chromeImage_events env _ _ _ _ _ _ HC)
      as (Hc & Hh & Hw & _).
    rewrite Hevs in Hc, Hh, Hw.
    destruct Hcase as [(e & _ & -> & Hev)|(_ & Herr & Hev)];
      rewrite Hev; cbn [head counters http_errors writes];
      rewrite counters_app, http_errors_app, writes_app, Hc, Hh, Hw.
    + cbn. repeat split; eauto.
    + destruct err as [e|]; cbn; repeat split; eauto.
Qed.

(** X11: a browser is launched, once, exactly when the form parses and
    decodes and the URL parses; otherwise no scope is created and nothing
    is run. *)
Theorem HandleHttpRequest_launches_once (p : Op.t) (hr : http_Request.t)
    (w w' : World) (err : option error) :
  HandleHttpRequest env p hr w = (err, w') →
  let decoded := form_Decode env (http_Request.Form hr) in
  (launches (new_events w w') = [] ↔
   is_Some (http_Request.ParseForm_err hr) ∨ is_Some decoded.2
   ∨ ∃ e, url_Parse env (Rq.URL decoded.1) = inr e)
  ∧ (length (launches (new_events w w')) ≤ 1)%nat
  ∧ (launches (new_events w w') = [] →
     created (new_events w w') = [] ∧ runs (new_events w w') = []).
Proof.
  intros Hrun.
  destruct (HandleHttpRequest_cases env p hr w w' err Hrun)
    as [(e & Hp & -> & Hev)
       |[(Hp & e & Hd & -> & Hev)
        |(Hp & Hd & data & cerr & w1 & evs & HC & Hevs & Hcase)]];
    cbv zeta in *.
  - rewrite Hev, Hp. cbn. repeat split; eauto; lia.
  - rewrite Hev, Hd. cbn. repeat split; eauto; lia.
  - destruct (chromeImage_events env _ _ _ _ _ _ HC)
      as (_ & _ & _ & Hlen & Hiff & Hnone).
    rewrite Hevs in Hlen, Hiff, Hnone.
    assert (Hl : launches (new_events w w') = launches evs
                 ∧ created (new_events w w') = created evs
                 ∧ runs (new_events w w') = runs evs).
    { destruct Hcase as [(e & _ & _ & Hev)|(_ & _ & Hev)]; rewrite Hev;
        cbn [launches created runs];
        rewrite launches_app, created_app, runs_app;
        [|destruct err]; cbn; rewrite !app_nil_r; auto. }
    destruct Hl as (-> & -> & ->). rewrite Hp, Hd.
    split; [|split; assumption].
    rewrite Hiff. split; [auto|].
    intros [[? [=]]|[[? [=]]|H]]. exact H.
Qed.

(** X15: when the primary run made for a request fails with an error
    that is not a deadline-exceeded error, the handler returns that very
    error, reports "could not make image: " followed by its text with
    status 500, and writes no response body. *)
Theorem HandleHttpRequest_image_error (p : Op.t) (hr : http_Request.t)
    (w w' : World) (err : option error)
    (u : url_URL) (ctx1 : Ctx) (out1 : RunOutcome) (e : error) :
  HandleHttpRequest env p hr w = (err, w') →
  let request := (form_Decode env (http_Request.Form hr)).1 in
  url_Parse env (Rq.URL request) = inl u →
  (ctx1, browser.buildTasks (chromeImage_options env p request) u true,
   out1) ∈ runs (new_events w w') →
  run_err out1 = Some e →
  errors_Is (Some e) context_DeadlineExceeded = false →
  err = Some e
  ∧ http_errors (new_events w w')
    = [(String.append "could not make image: " (error_Error e), 500)]
  ∧ writes (new_events w w') = [].
Proof.
  intros Hrun request Hu Hin He Hnd. subst request.
  destruct (HandleHttpRequest_cases env p hr w w' err Hrun)
    as [(e0 & Hp & -> & Hev)
       |[(Hp & e0 & Hd & -> & Hev)
        |(Hp & Hd & data & cerr & w1 & evs & HC & Hevs & Hcase)]];
    cbv zeta in *.
  - rewrite Hev in Hin. apply elem_of_nil in Hin. contradiction.
  - rewrite Hev in Hin. apply elem_of_nil in Hin. contradiction.
  - assert (Hr : runs (new_events w w') = runs evs).
    { destruct Hcase as [(e0 & _ & _ & Hev)|(_ & _ & Hev)]; rewrite Hev;
        apply runs_of_handler; try reflexivity.
      destruct err; reflexivity. }
    rewrite Hr in Hin.
    destruct (chromeImage_events env _ _ _ _ _ _ HC)
      as (_ & Hh & Hw & _).
    rewrite Hevs in Hh, Hw.
    destruct (chromeImage_cases env _ _ _ _ _ _ HC)
      as [(e0 & Hu0 & _)|(u0 & image & Hu0 & HI & _)]; [congruence|].
    assert (u0 = u) as -> by congruence.
    rewrite Image_two_attempts in HI. rewrite <- Hevs in Hin.
    destruct (two_attempts_no_deadline _ _ _ _ _ _ _ _ _ _ _ _
                (browser_buildTasks_nonempty _ u true)
                (browser_buildTasks_fallback_differs _ u)
                HI Hin) as (_ & _ & _ & _ & _ & Hres).
    { rewrite He. exact Hnd. }
    rewrite He in Hres. injection Hres as _ ->.
    destruct Hcase as [(e0 & [= <-] & -> & Hev)|([=] & _)].
    rewrite Hev. cbn [http_errors writes].
    rewrite http_errors_app, writes_app, Hh, Hw. auto.
Qed.

(** X16: when the handler returns no error it has written exactly one
    response body, as its last action and without any call to
    [http.Error]: the buffer as the pipeline runs of the request left it,
    each run storing over the previous one. *)
Theorem HandleHttpRequest_success_body (p : Op.t) (hr : http_Request.t)
    (w w' : World) (err : option error) :
  HandleHttpRequest env p hr w = (err, w') →
  err = None →
  let data :=
    ChromeBrowserImage.Data
      (foldl store {| ChromeBrowserImage.Data := [];
                      ChromeBrowserImage.DOM := "" |}
         (map snd (drop 1 (runs (new_events w w'))))) in
  writes (new_events w w') = [(data, None)]
  ∧ last (new_events w w') = Some (EvWrite data None)
  ∧ http_errors (new_events w w') = [].
Proof.
  intros Hrun ->.
  destruct (HandleHttpRequest_cases env p hr w w' None Hrun)
    as [(e0 & _ & [=] & _)
       |[(_ & e0 & _ & [=] & _)
        |(Hp & Hd & data & cerr & w1 & evs & HC & Hevs & Hcase)]];
    cbv zeta in *.
  destruct Hcase as [(e0 & _ & [=] & _)|(-> & Herr & Hev)].
  destruct (chromeImage_events env _ _ _ _ _ _ HC) as (_ & Hh & Hw & _).
  rewrite Hevs in Hh, Hw.
  destruct (chromeImage_cases env _ _ _ _ _ _ HC)
    as [(e0 & _ & [=] & _)|(u0 & image & Hu0 & HI & Hdata)].
  rewrite Image_two_attempts in HI.
  destruct (two_attempts_nil_only_with_error _ _ _ _ _ _ _ _ _ _ HI)
    as [Hnil _].
  destruct image as [im|]; [|exfalso; apply Hnil; reflexivity].
  pose proof (two_attempts_result_fold _ _ _ _ _ _ _ _ _ _ im HI eq_refl)
    as Him.
  rewrite Hevs in Him.
  assert (Hr : runs (new_events w w') = runs evs)
    by (rewrite Hev; apply runs_of_handler; reflexivity).
  rewrite Hr, <- Him, <- Hdata, Hev.
  cbn [writes http_errors]. rewrite writes_app, http_errors_app, Hw, Hh.
  split; [reflexivity|]. split; [|reflexivity].
  change (EvCounterInc "requests"
            (strings_TrimLeft (http_Request.URL_Path hr) "/")
          :: evs ++ [EvWrite data None])
    with ((EvCounterInc "requests"
             (strings_TrimLeft (http_Request.URL_Path hr) "/") :: evs)
          ++ [EvWrite data None]).
  apply last_snoc.
Qed.
End ImageProcessorMore.

(** * Further properties of the options and the builders *)

(** X13: [chromeImage] validates nothing: a width, height, timeout or
    delay of the request that is not zero, negative ones included, and a
    user agent that is not empty reach the browser options unchanged; the
    binary path is always the configured one, the headers are the
    request's, and no proxy is ever set. *)
Theorem chromeImage_options_request_wins (env : Env)
    (p : ImageProcessorOptions.t) (r : ImageProcessorRequest.t) :
  let options := image_processor.chromeImage_options env p r in
  (ImageProcessorRequest.Width r ≠ 0 →
   ChromeBrowserOptions.Width options = ImageProcessorRequest.Width r)
  ∧ (ImageProcessorRequest.Height r ≠ 0 →
     ChromeBrowserOptions.Height options = ImageProcessorRequest.Height r)
  ∧ (ImageProcessorRequest.Timeout r ≠ 0 →
     ChromeBrowserOptions.Timeout options
     = ImageProcessorRequest.Timeout r)
  ∧ (ImageProcessorRequest.Delay r ≠ 0 →
     ChromeBrowserOptions.Delay options = ImageProcessorRequest.Delay r)
  ∧ (utils_IsEmpty env (ImageProcessorRequest.UserAgent r) = false →
     ChromeBrowserOptions.UserAgent options
     = ImageProcessorRequest.UserAgent r)
  ∧ ChromeBrowserOptions.Path options
    = ImageProcessorOptions.BrowserPath p
  ∧ ChromeBrowserOptions.HeadersMap options
    = ImageProcessorRequest.Headers r
  ∧ ChromeBrowserOptions.Proxy options = "".
Proof.
  unfold image_processor.chromeImage_options; cbn.
  repeat split; try (intros H; apply Z.eqb_neq in H; rewrite H; reflexivity).
  intros ->. reflexivity.
Qed.

Lemma Sleep_in_navigation (c : ChromeBrowserOptions.t) (u : url_URL)
    (dur : Z) :
  chromedp_Sleep dur ∈ browser.buildTasks c u true ↔
  0 < ChromeBrowserOptions.Delay c
  ∧ dur = time.mul (ChromeBrowserOptions.Delay c) time.Second.
Proof.
  rewrite browser_buildTasks_blocks.
  unfold header_block, navigation_block, capture_dom, output_capture.
  rewrite !elem_of_app.
  repeat case_decide;
    destruct (ChromeBrowserOptions.AsPDF c),
      (ChromeBrowserOptions.FullPage c);
    rewrite ?elem_of_cons, ?elem_of_nil;
    split; intros Hsl; try lia;
    repeat match goal with
           | H : _ ∨ _ |- _ => destruct H
           | H : _ ∧ _ |- _ => destruct H
           | H : False |- _ => destruct H
           | H : chromedp_Sleep _ = _ |- _ =>
             first [discriminate H | injection H as ->]
           end;
    try lia; subst; auto 10.
Qed.


Lemma time_mul_seconds_exact (n : Z) :
  -9223372036 ≤ n ≤ 9223372036 →
  time.mul n time.Second = n * 1000000000.
Proof.
  intros Hn. unfold time.mul, time.Second, wrap64.
  rewrite Z.mod_small by lia. lia.
Qed.

(** X18: for a delay between 1 and 9223372036 seconds the primary
    pipeline of either builder sleeps for exactly that many seconds,
    counted in nanoseconds: the multiplication does not wrap around. *)
Theorem Sleep_duration_exact (c : ChromeBrowserOptions.t)
    (p : ChromeProcessorOptions.t) (u : url_URL) :
  (0 < ChromeBrowserOptions.Delay c ≤ 9223372036 →
   chromedp_Sleep (ChromeBrowserOptions.Delay c * 1000000000)
     ∈ browser.buildTasks c u true)
  ∧ (0 < ChromeProcessorOptions.Delay p ≤ 9223372036 →
     chromedp_Sleep (ChromeProcessorOptions.Delay p * 1000000000)
       ∈ chrome_processor.buildTasks p u true).
Proof.
  split; intros Hd; [|rewrite processor_buildTasks_as_browser];
    apply Sleep_in_navigation; (split; [apply Hd|]);
    symmetry; apply time_mul_seconds_exact; cbn; lia.
Qed.

(** X19: the fallback pipeline is the primary pipeline without its
    navigation steps, for either builder. *)
Theorem fallback_is_primary_without_navigation
    (c : ChromeBrowserOptions.t) (p : ChromeProcessorOptions.t)
    (u : url_URL) :
  List.filter kept_by_fallback (browser.buildTasks c u true)
  = browser.buildTasks c u false
  ∧ List.filter kept_by_fallback (chrome_processor.buildTasks p u true)
    = chrome_processor.buildTasks p u false.
Proof.
  assert (H : ∀ c0,
    List.filter kept_by_fallback (browser.buildTasks c0 u true)
    = browser.buildTasks c0 u false).
  { intros c0. rewrite !browser_buildTasks_blocks.
    unfold header_block, navigation_block, capture_dom, output_capture.
    repeat case_decide;
      destruct (ChromeBrowserOptions.AsPDF c0),
        (ChromeBrowserOptions.FullPage c0); reflexivity. }
  split; [apply H|].
  rewrite !processor_buildTasks_as_browser. apply H.
Qed.

(** What [strings.TrimLeft] removes and what it leaves. *)
Lemma strings_TrimLeft_spec (s cutset : string) :
  (∃ prefix,
     s = String.append prefix (strings_TrimLeft s cutset)
     ∧ ∀ a, string_contains_char a prefix = true →
            string_contains_char a cutset = true)
  ∧ ∀ a rest,
      strings_TrimLeft s cutset = String a rest →
      string_contains_char a cutset = false.
Proof.
  induction s as [|a s [(prefix & Hs & Hp) Hrest]]; cbn.
  - split; [exists ""; split; [reflexivity|discriminate]|discriminate].
  - destruct (string_contains_char a cutset) eqn:Ha.
    + split; [|exact Hrest].
      exists (String a prefix).
      split; [rewrite Hs at 1; reflexivity|].
      intros a0. cbn [string_contains_char].
      destruct (Ascii.eqb_spec a0 a) as [->|]; auto.
    + split.
      * exists "". split; [reflexivity|discriminate].
      * intros a0 rest [= <- _]. exact Ha.
Qed.

(** X20: every counter a request increments is labelled with the URL path
    stripped of its leading slashes: the label does not begin with a
    slash, and the path is the label behind slashes only. *)
Theorem HandleHttpRequest_channel_label (env : Env)
    (p : ImageProcessorOptions.t) (hr : http_Request.t) (w w' : World)
    (err : option error) (name channel : string) :
  image_processor.HandleHttpRequest env p hr w = (err, w') →
  (name, channel) ∈ counters (new_events w w') →
  (∃ prefix,
     http_Request.URL_Path hr = String.append prefix channel
     ∧ ∀ a, string_contains_char a prefix = true → a = slash)
  ∧ ∀ rest, channel ≠ String slash rest.
Proof.
  intros Hrun Hin.
  assert (channel = strings_TrimLeft (http_Request.URL_Path hr) "/")
    as ->.
  { destruct (HandleHttpRequest_cases env p hr w w' err Hrun)
      as [(e & _ & _ & Hev)
         |[(_ & e & _ & _ & Hev)
          |(_ & _ & data & cerr & w1 & evs & HC & Hevs & Hcase)]];
      cbv zeta in *.
    - rewrite Hev in Hin. cbn in Hin.
      repeat (apply elem_of_cons in Hin as [Hin|Hin]);
        try (apply elem_of_nil in Hin; contradiction); congruence.
    - rewrite Hev in Hin. cbn in Hin.
      repeat (apply elem_of_cons in Hin as [Hin|Hin]);
        try (apply elem_of_nil in Hin; contradiction); congruence.
    - destruct (chromeImage_events env _ _ _ _ _ _ HC) as (Hc & _).
      rewrite Hevs in Hc.
      destruct Hcase as [(e & _ & _ & Hev)|(_ & _ & Hev)];
        rewrite Hev in Hin; cbn [counters] in Hin;
        rewrite counters_app, Hc in Hin; [|destruct err]; cbn in Hin;
        repeat (apply elem_of_cons in Hin as [Hin|Hin]);
        try (apply elem_of_nil in Hin; contradiction); congruence. }
  destruct (strings_TrimLeft_spec (http_Request.URL_Path hr) "/")
    as [(prefix & Hs & Hp) Hrest].
  split.
  - exists prefix. split; [exact Hs|].
    intros a Ha. apply Hp in Ha.
    change (string_contains_char a "/")
      with (if Ascii.eqb a slash then true else false) in Ha.
    destruct (Ascii.eqb_spec a slash); [assumption|discriminate].
  - intros rest Heq. apply Hrest in Heq.
    change (string_contains_char slash "/")
      with (if Ascii.eqb slash slash then true else false) in Heq.
    rewrite Ascii.eqb_refl in Heq. discriminate.
Qed.



Section ChromeProcessorHandler.
Variable env : Env.
Import chrome_processor_http.

(** X17: the handler of [ChromeProcessor] reads nothing of a request but
    its path: two requests with the same path are handled alike, and
    every pipeline it runs is built for the URL that parsing
    "https://google.com" yields. *)
Theorem ChromeProcessor_handler_fixed_page (p : ChromeProcessorOptions.t)
    (hr1 hr2 : http_Request.t) (w w' : World) (err : option error) :
  http_Request.URL_Path hr1 = http_Request.URL_Path hr2 →
  HandleHttpRequest env p hr1 w = (err, w') →
  HandleHttpRequest env p hr2 w = (err, w')
  ∧ ∀ ctx tasks out,
      (ctx, tasks, out) ∈ runs (new_events w w') →
      tasks = []
      ∨ ∃ u nav,
          url_Parse env "https://google.com" = inl u
          ∧ tasks = chrome_processor.buildTasks p u nav.
Proof.
  intros Hpath Hrun. split.
  { rewrite <- Hrun. unfold HandleHttpRequest. rewrite Hpath.
    reflexivity. }
  revert Hrun. unfold HandleHttpRequest.
  cbv [mbind M_bind mret M_ret image_processor.counter_Inc
       image_processor.http_Error emit
       image_processor.ResponseWriter_Write get_trace].
  cbn [trace next_ctx deferred].
  destruct (url_Parse env "https://google.com") as [u|e] eqn:Hu.
  2:{ intros [= <- <-]. cbn [trace].
      erewrite new_events_app by (rewrite <- !app_assoc; reflexivity).
      intros ctx tasks out Hin. apply elem_of_nil in Hin.
      contradiction. }
  match goal with
  | |- context [chrome_processor_exec.Screenshot env p u ?w0] =>
    destruct (chrome_processor_exec.Screenshot env p u w0)
      as [[ss serr] w1] eqn:HS
  end.
  rewrite Screenshot_two_attempts in HS.
  destruct (two_attempts_extends _ _ _ _ _ _ _ _ _ _ HS) as [evs Htr].
  pose proof (new_events_app _ _ _ Htr) as Hevs. cbn [trace] in Htr.
  assert (Hgoal : ∀ tail ctx tasks out,
    runs tail = [] →
    (ctx, tasks, out)
      ∈ runs (EvCounterInc "requests"
                (strings_TrimLeft (http_Request.URL_Path hr1) "/")
              :: evs ++ tail) →
    tasks = []
    ∨ ∃ u0 nav, (inl u : url_URL + error) = inl u0
                ∧ tasks = chrome_processor.buildTasks p u0 nav).
  { intros tail ctx tasks out Htail Hin.
    change (EvCounterInc "requests"
              (strings_TrimLeft (http_Request.URL_Path hr1) "/")
            :: evs ++ tail)
      with ([EvCounterInc "requests"
               (strings_TrimLeft (http_Request.URL_Path hr1) "/")]
            ++ evs ++ tail) in Hin.
    rewrite !runs_app, Htail, app_nil_r in Hin. cbn [runs app] in Hin.
    rewrite <- Hevs in Hin.
    destruct (two_attempts_run_tasks _ _ _ _ _ _ _ _ _ _ _ _ _ HS Hin)
      as [H|[H|H]]; [left; exact H|right..]; eauto. }
  destruct serr as [e|];
    [|destruct (http_Write env (trace w1) _) as [e|]];
    intros [= <- <-]; cbn [trace]; rewrite Htr;
    (erewrite new_events_app by (rewrite <- !app_assoc; reflexivity));
    intros ctx tasks out; apply Hgoal; reflexivity.
Qed.
End ChromeProcessorHandler.

(** X5: [Image] returns either an image or an error, never both and never
    neither; a returned image is the empty image after each pipeline run
    of the call, in order, has stored its results into it. *)
Theorem Image_result_or_error (env : Env) (c : ChromeBrowserOptions.t)
    (url : url_URL) (w w' : World)
    (res : option ChromeBrowserImage.t * option error) :
  browser_exec.Image env c url w = (res, w') →
  (res.1 = None ↔ res.2 ≠ None)
  ∧ ∀ image,
      res.1 = Some image →
      image = foldl store {| ChromeBrowserImage.Data := [];
                             ChromeBrowserImage.DOM := "" |}
                (map snd (drop 1 (runs (new_events w w')))).
Proof.
  rewrite Image_two_attempts. intros Hrun. split.
  - exact (two_attempts_nil_only_with_error _ _ _ _ _ _ _ _ _ _ Hrun).
  - intros image. exact (two_attempts_result_fold _ _ _ _ _ _ _ _ _ _ _
                           Hrun).
Qed.

(** * The further theorems at work on the samples *)

Lemma Image_launch_failure_witness :
  let run :=
    browser_exec.Image sample_more.no_browser sample.options sample.url
      sample.world0 in
  let e := errors_New "exec: chrome: not found" in
  head (runs (new_events sample.world0 run.2))
  = Some (2%nat, [], sample.nothing (Some e))
  ∧ run.1 = (None, Some e)
  ∧ listeners (new_events sample.world0 run.2) = [].
Proof.
  cbv zeta. split; [reflexivity|].
  destruct (Image_launch_failure sample_more.no_browser sample.options
              sample.url sample.world0 _ _ 2%nat
              (sample.nothing
                 (Some (errors_New "exec: chrome: not found")))
              (errors_New "exec: chrome: not found")
              (surjective_pairing _) eq_refl eq_refl)
    as (Hres & _ & Hl).
  split; assumption.
Defined.


Lemma Image_primary_success_witness :
  let run :=
    browser_exec.Image sample_more.fast_page sample.options sample.url
      sample.world0 in
  (3%nat, browser.buildTasks sample.options sample.url true,
   sample.captured) ∈ runs (new_events sample.world0 run.2)
  ∧ run.1 = (Some (store {| ChromeBrowserImage.Data := [];
                            ChromeBrowserImage.DOM := "" |}
                     sample.captured), None).
Proof.
  cbv zeta.
  assert (Hin :
    (3%nat, browser.buildTasks sample.options sample.url true,
     sample.captured)
      ∈ runs (new_events sample.world0
                (browser_exec.Image sample_more.fast_page sample.options
                   sample.url sample.world0).2)).
  { apply list_elem_of_In. vm_compute. right; left; reflexivity. }
  split; [exact Hin|].
  exact (proj1 (Image_primary_success sample_more.fast_page sample.options
                  sample.url sample.world0 _ _ _ _
                  (surjective_pairing _) Hin eq_refl)).
Defined.


Lemma Image_result_or_error_witness :
  let run :=
    browser_exec.Image sample.slow_page sample.options sample.url
      sample.world0 in
  run.1.2 = None
  ∧ run.1.1 = Some (store {| ChromeBrowserImage.Data := [];
                             ChromeBrowserImage.DOM := "" |}
                      sample.captured)
  ∧ (run.1.1 = None ↔ run.1.2 ≠ None).
Proof.
  cbv zeta. split; [reflexivity|]. split; [reflexivity|].
  exact (proj1 (Image_result_or_error sample.slow_page sample.options
                  sample.url sample.world0 _ _ (surjective_pairing _))).
Defined.

Lemma Image_single_launch_options_witness :
  let run :=
    browser_exec.Image sample.slow_page sample.options sample.url
      sample.world0 in
  ChromeBrowserOptions.Path sample.options = ""
  ∧ launches (new_events sample.world0 run.2)
    = [[chromedp.DefaultExecAllocatorOptions;
        chromedp.UserAgent "webrender"; chromedp.DisableGPU;
        chromedp.Flag "ignore-certificate-errors" true;
        chromedp.WindowSize 1024 768]].
Proof.
  cbv zeta. split; [reflexivity|].
  exact (Image_single_launch_options sample.slow_page sample.options
           sample.url sample.world0 _ _ (surjective_pairing _)).
Defined.

Lemma Image_crash_guarded_witness :
  let run :=
    browser_exec.Image sample.slow_page sample.options sample.url
      sample.world0 in
  length (listeners (new_events sample.world0 run.2)) = 6%nat
  ∧ crash_guarded [] (new_events sample.world0 run.2) = true.
Proof.
  cbv zeta. split; [reflexivity|].
  exact (proj1 (Image_crash_guarded sample.slow_page sample.options
                  sample.url sample.world0 _ _ (surjective_pairing _))).
Defined.

Lemma Screenshot_deadline_runs_one_fallback_witness :
  let run :=
    chrome_processor_exec.Screenshot sample.slow_page
      sample.processor_options sample.url sample.world0 in
  let out1 := sample.nothing (Some context_DeadlineExceeded) in
  (3%nat,
   chrome_processor.buildTasks sample.processor_options sample.url true,
   out1) ∈ runs (new_events sample.world0 run.2)
  ∧ ∃ ctx0 out0 parent ctx2 out2,
      runs (new_events sample.world0 run.2)
      = [(ctx0, [], out0);
         (3%nat,
          chrome_processor.buildTasks sample.processor_options sample.url
            true, out1);
         (ctx2,
          chrome_processor.buildTasks sample.processor_options sample.url
            false, out2)]
      ∧ timeouts (new_events sample.world0 run.2)
        = [(parent,
            time.mul
              (ChromeProcessorOptions.Timeout sample.processor_options)
              time.Second, 3%nat);
           (parent,
            time.mul
              (ChromeProcessorOptions.Timeout sample.processor_options)
              time.Second, ctx2)]
      ∧ 3%nat ≠ ctx2
      ∧ run.1 = match run_err out2 with
                | Some e => (None, Some e)
                | None =>
                  (Some (store_screenshot
                           (store_screenshot
                              {| ChromeScreenshot.data := [];
                                 ChromeScreenshot.dom := "" |} out1)
                           out2), None)
                end.
Proof.
  cbv zeta.
  assert (Hin :
    (3%nat,
     chrome_processor.buildTasks sample.processor_options sample.url true,
     sample.nothing (Some context_DeadlineExceeded))
      ∈ runs (new_events sample.world0
                (chrome_processor_exec.Screenshot sample.slow_page
                   sample.processor_options sample.url
                   sample.world0).2)).
  { apply list_elem_of_In. vm_compute. right; left; reflexivity. }
  split; [exact Hin|].
  exact (Screenshot_deadline_runs_one_fallback sample.slow_page
           sample.processor_options sample.url sample.world0 _ _ _ _
           (surjective_pairing _) Hin eq_refl).
Defined.

Lemma HandleHttpRequest_accounting_witness :
  let run :=
    image_processor.HandleHttpRequest sample.unknown_host
      sample.configured_pdf (sample_more.slashed []) sample.world0 in
  run.1 = Some (errors_New "net::ERR_NAME_NOT_RESOLVED")
  ∧ counters (new_events sample.world0 run.2)
    = [("requests", "image"); ("errors", "image")]
  ∧ (length (writes (new_events sample.world0 run.2)) ≤ 1)%nat.
Proof.
  cbv zeta. split; [reflexivity|].
  destruct (HandleHttpRequest_accounting sample.unknown_host
              sample.configured_pdf (sample_more.slashed [])
              sample.world0 _ _ (surjective_pairing _))
    as (_ & Hc & _ & Hw).
  split; [exact Hc|exact Hw].
Defined.

Lemma HandleHttpRequest_launches_once_witness :
  let run :=
    image_processor.HandleHttpRequest sample.slow_page
      sample.configured_pdf sample_more.bad_form sample.world0 in
  is_Some (http_Request.ParseForm_err sample_more.bad_form)
  ∧ launches (new_events sample.world0 run.2) = []
  ∧ runs (new_events sample.world0 run.2) = [].
Proof.
  cbv zeta.
  assert (Hp : is_Some (http_Request.ParseForm_err sample_more.bad_form))
    by (eexists; reflexivity).
  destruct (HandleHttpRequest_launches_once sample.slow_page
              sample.configured_pdf sample_more.bad_form sample.world0
              _ _ (surjective_pairing _)) as (Hiff & _ & Hnone).
  split; [exact Hp|].
  assert (Hl : launches
                 (new_events sample.world0
                    (image_processor.HandleHttpRequest sample.slow_page
                       sample.configured_pdf sample_more.bad_form
                       sample.world0).2) = [])
    by (apply Hiff; left; exact Hp).
  split; [exact Hl|]. exact (proj2 (Hnone Hl)).
Defined.

Lemma chromeImage_options_defaults_witness :
  let options :=
    image_processor.chromeImage_options sample.slow_page
      sample.configured_pdf sample.bare_request in
  ImageProcessorRequest.Width sample.bare_request = 0
  ∧ sample.IsEmpty (ImageProcessorRequest.UserAgent sample.bare_request)
    = true
  ∧ ChromeBrowserOptions.Width options = 1920
  ∧ ChromeBrowserOptions.UserAgent options = "webrender".
Proof.
  cbv zeta.
  destruct (chromeImage_options_defaults sample.slow_page
              sample.configured_pdf sample.bare_request)
    as (Hw & _ & _ & _ & Hua).
  split; [reflexivity|]. split; [reflexivity|].
  split; [exact (Hw eq_refl)|exact (Hua eq_refl)].
Defined.

Lemma chromeImage_options_request_wins_witness :
  let options :=
    image_processor.chromeImage_options sample.slow_page
      sample.configured_pdf sample_more.odd_request in
  ImageProcessorRequest.Width sample_more.odd_request ≠ 0
  ∧ ChromeBrowserOptions.Width options = -5
  ∧ ChromeBrowserOptions.Delay options = -1
  ∧ ChromeBrowserOptions.UserAgent options = "curl/8".
Proof.
  cbv zeta.
  destruct (chromeImage_options_request_wins sample.slow_page
              sample.configured_pdf sample_more.odd_request)
    as (Hw & _ & _ & Hd & Hua & _).
  split; [discriminate|].
  split; [apply Hw; discriminate|].
  split; [apply Hd; discriminate|apply Hua; reflexivity].
Defined.


Lemma HandleHttpRequest_image_error_witness :
  let run :=
    image_processor.HandleHttpRequest sample.unknown_host
      sample.configured_pdf (sample.http_request []) sample.world0 in
  let e := errors_New "net::ERR_NAME_NOT_RESOLVED" in
  errors_Is (Some e) context_DeadlineExceeded = false
  ∧ run.1 = Some e
  ∧ http_errors (new_events sample.world0 run.2)
    = [("could not make image: net::ERR_NAME_NOT_RESOLVED", 500)]
  ∧ writes (new_events sample.world0 run.2) = [].
Proof.
  cbv zeta. split; [reflexivity|].
  apply (HandleHttpRequest_image_error sample.unknown_host
           sample.configured_pdf (sample.http_request []) sample.world0
           _ _ {| URL_String := "https://slow.example" |} 3%nat
           (sample.nothing
              (Some (errors_New "net::ERR_NAME_NOT_RESOLVED")))
           (errors_New "net::ERR_NAME_NOT_RESOLVED")
           (surjective_pairing _) eq_refl);
    [|reflexivity|reflexivity].
  apply list_elem_of_In. vm_compute. right; left; reflexivity.
Defined.

Lemma HandleHttpRequest_success_body_witness :
  let run :=
    image_processor.HandleHttpRequest sample.slow_page
      sample.configured_pdf (sample.http_request []) sample.world0 in
  run.1 = None
  ∧ writes (new_events sample.world0 run.2)
    = [([Byte.x89; Byte.x50; Byte.x4e; Byte.x47], None)]
  ∧ http_errors (new_events sample.world0 run.2) = [].
Proof.
  cbv zeta. split; [reflexivity|].
  destruct (HandleHttpRequest_success_body sample.slow_page
              sample.configured_pdf (sample.http_request [])
              sample.world0 _ _ (surjective_pairing _) eq_refl)
    as (Hw & _ & Hh).
  split; [exact Hw|exact Hh].
Defined.

Lemma ChromeProcessor_handler_fixed_page_witness :
  let run :=
    chrome_processor_http.HandleHttpRequest sample_more.fast_page
      sample.processor_options (sample.http_request ["firefox"])
      sample.world0 in
  http_Request.Form (sample.http_request ["firefox"])
  ≠ http_Request.Form (sample.http_request [])
  ∧ chrome_processor_http.HandleHttpRequest sample_more.fast_page
      sample.processor_options (sample.http_request []) sample.world0
    = run.
Proof.
  cbv zeta. split; [intros H; discriminate H|].
  rewrite (surjective_pairing
             (chrome_processor_http.HandleHttpRequest
                sample_more.fast_page sample.processor_options
                (sample.http_request ["firefox"]) sample.world0)).
  exact (proj1 (ChromeProcessor_handler_fixed_page sample_more.fast_page
                  sample.processor_options
                  (sample.http_request ["firefox"])
                  (sample.http_request []) sample.world0 _ _ eq_refl
                  (surjective_pairing _))).
Defined.

Lemma Sleep_duration_exact_witness :
  0 < ChromeBrowserOptions.Delay sample.scripted ≤ 9223372036
  ∧ chromedp_Sleep 3000000000
      ∈ browser.buildTasks sample.scripted sample.url true.
Proof.
  assert (Hd : 0 < ChromeBrowserOptions.Delay sample.scripted
               ≤ 9223372036) by (cbn; lia).
  split; [exact Hd|].
  exact (proj1 (Sleep_duration_exact sample.scripted
                  sample.processor_options sample.url) Hd).
Defined.

Lemma HandleHttpRequest_channel_label_witness :
  let run :=
    image_processor.HandleHttpRequest sample.slow_page
      sample.configured_pdf sample_more.bad_form sample.world0 in
  http_Request.URL_Path sample_more.bad_form = "//image"
  ∧ ("errors", "image") ∈ counters (new_events sample.world0 run.2)
  ∧ ∀ rest, "image" ≠ String slash rest.
Proof.
  cbv zeta.
  assert (Hin :
    ("errors", "image")
      ∈ counters (new_events sample.world0
                    (image_processor.HandleHttpRequest sample.slow_page
                       sample.configured_pdf sample_more.bad_form
                       sample.world0).2)).
  { apply list_elem_of_In. vm_compute. right; left; reflexivity. }
  split; [reflexivity|]. split; [exact Hin|].
  exact (proj2 (HandleHttpRequest_channel_label sample.slow_page
                  sample.configured_pdf sample_more.bad_form
                  sample.world0 _ _ "errors" "image"
                  (surjective_pairing _) Hin)).
Defined.

